(** * bunq SDK: authentication-context lifecycle and response unwrapping

    A shallow embedding of [bunq/sdk/context/api_context.py] and of the
    envelope helpers of [bunq/sdk/model/model.py].

    Python objects become records, [None]-able attributes become [option],
    raised exceptions become the [Raise] outcome of a computation, and the
    mutable [ApiContext] instance together with the outside world (wall
    clock, remote API) is threaded explicitly through a state-and-exception
    monad in which the state survives a raised exception, as it does in
    Python. *)

From Stdlib Require Import ZArith List String Ascii Bool Lia.
Import ListNotations.

Local Open Scope string_scope.
Local Open Scope list_scope.
Local Open Scope Z_scope.

(** ** Exceptions and outcomes *)

(** Subscript keys: [obj['Response']] or [obj[0]]. *)
Inductive subscript : Type :=
| SubStr (key : string)
| SubInt (index : Z).

Inductive exn : Type :=
| KeyError (key : subscript)      (* dict subscript with a missing key *)
| IndexError                      (* list or str index out of range *)
| TypeError                       (* value is not subscriptable / iterable *)
| OverflowError                   (* datetime or timedelta out of range *)
| BunqException                   (* bunq.sdk.exception.BunqException *)
| ExternalError (what : string).  (* raised by a collaborator outside src *)

Inductive result (A : Type) : Type :=
| Ok (value : A)
| Raise (e : exn).

Arguments Ok {A} value.
Arguments Raise {A} e.

Definition result_bind {A B} (r : result A) (k : A -> result B) : result B :=
  match r with
  | Ok a => k a
  | Raise e => Raise e
  end.

(** ** Python's naive [datetime] and [timedelta]

    Both are exact integers of microseconds: a [datetime] counts from
    0001-01-01T00:00:00, a [timedelta] is a signed duration. *)

Module datetime.

Definition MICROSECONDS_PER_SECOND : Z := 1000000.
Definition SECONDS_PER_DAY : Z := 86400.

  (** [datetime.max] is 9999-12-31T23:59:59.999999, day ordinal 3652059. *)
Definition max : Z :=
    3652059 * SECONDS_PER_DAY * MICROSECONDS_PER_SECOND - 1.
Definition min : Z := 0.

  (** [timedelta.max.days] *)
Definition MAX_DELTA_DAYS : Z := 999999999.

  (** [datetime.timedelta(seconds=n)] for an [int] n. *)
Definition timedelta (seconds : Z) : result Z :=
    let days := seconds / SECONDS_PER_DAY in
    if (Z.abs days >? MAX_DELTA_DAYS)
    then Raise OverflowError
    else Ok (seconds * MICROSECONDS_PER_SECOND).

  (** [d + delta] on a datetime. *)
Definition add (d delta : Z) : result Z :=
    let r := d + delta in
    if (r <? min) || (max <? r) then Raise OverflowError else Ok r.

  (** [d1 - d2] on two datetimes: the span between two representable
      datetimes is far below [MAX_DELTA_DAYS], so this never raises. *)
Definition sub (d1 d2 : Z) : Z := d1 - d2.

End datetime.

(** ** Data held by the context *)

(** [bunq.sdk.context.api_environment_type.ApiEnvironmentType] *)
Inductive ApiEnvironmentType : Type := PRODUCTION | SANDBOX.

Definition ApiEnvironmentType_eqb (a b : ApiEnvironmentType) : bool :=
  match a, b with
  | PRODUCTION, PRODUCTION | SANDBOX, SANDBOX => true
  | _, _ => false
  end.

(** An RSA key, kept as its PEM text; the context never looks inside. *)
Definition RsaKey : Type := string.

Module InstallationContext.
Record t : Type := mk {
    token : string;
    private_key_client : RsaKey;
    public_key_server : RsaKey
  }.
End InstallationContext.

Module SessionContext.
Record t : Type := mk {
    token : string;
    expiry_time : Z;
    user_id : Z
  }.
End SessionContext.

(** ** What the session-server endpoint returns

    The classes of [bunq.sdk.model.core] and [bunq.sdk.model.generated] that
    [api_context.py] imports are not part of the sources at hand; the
    records below carry exactly the attributes [api_context.py] reads.  A
    method whose body is unavailable ([get_referenced_object],
    [get_referenced_user]) is represented by the outcome it yields on that
    object, stored with the object. *)

(** A generated user object ([UserCompany], [UserPerson], ...). *)
Module User.
Record t : Type := mk {
    id_ : Z;
    session_timeout : Z
  }.
End User.

Module UserApiKeyAnchoredUser.
Record t : Type := mk {
    referenced_object : result User.t
  }.
Definition get_referenced_object (a : t) : result User.t :=
    referenced_object a.
End UserApiKeyAnchoredUser.

Module UserApiKey.
Record t : Type := mk {
    requested_by_user : UserApiKeyAnchoredUser.t
  }.
End UserApiKey.

Module SessionToken.
Record t : Type := mk { token : string }.
End SessionToken.

Module SessionServer.
Record t : Type := mk {
    token : SessionToken.t;
    user_company : option User.t;
    user_person : option User.t;
    user_api_key : option UserApiKey.t;
    referenced_user : result User.t
  }.
Definition get_referenced_user (s : t) : result User.t :=
    referenced_user s.
End SessionServer.

(** ** The context object *)

Record ApiContext : Type := mkApiContext {
  _environment_type : ApiEnvironmentType;
  _api_key : string;
  _installation_context : option InstallationContext.t;
  _session_context : option SessionContext.t;
  _proxy_url : option string
}.

(** ** The outside world

    Every effect the context performs is appended to a trace.  The wall
    clock and the remote endpoints are oracles indexed by how many times
    they were consulted before. *)

Inductive Event : Type :=
| ClockRead                           (* datetime.datetime.now() *)
| SessionServerPost (secret : string) (* POST session-server *)
| SessionDelete (session_id : Z).     (* DELETE session/{id} *)

Definition is_ClockRead (e : Event) : bool :=
  match e with ClockRead => true | _ => false end.
Definition is_SessionServerPost (e : Event) : bool :=
  match e with SessionServerPost _ => true | _ => false end.
Definition is_SessionDelete (e : Event) : bool :=
  match e with SessionDelete _ => true | _ => false end.

Definition occurrences (p : Event -> bool) (tr : list Event) : nat :=
  List.length (List.filter p tr).

Record World : Type := mkWorld {
  clock : nat -> Z;
  session_server_reply : nat -> result SessionServer.t;
  session_delete_reply : nat -> result unit;
  trace : list Event
}.

Definition record (e : Event) (w : World) : World :=
  mkWorld (clock w) (session_server_reply w) (session_delete_reply w)
          (trace w ++ [e]).

Record State : Type := mkState {
  world : World;
  self : ApiContext
}.

(** ** Computations: state that survives exceptions *)

Definition M (A : Type) : Type := State -> result A * State.

Definition ret {A} (a : A) : M A := fun st => (Ok a, st).

Definition raise {A} (e : exn) : M A := fun st => (Raise e, st).

Definition bind {A B} (c : M A) (k : A -> M B) : M B :=
  fun st =>
    match c st with
    | (Ok a, st') => k a st'
    | (Raise e, st') => (Raise e, st')
    end.

Definition lift {A} (r : result A) : M A := fun st => (r, st).

Declare Scope py_scope.
Delimit Scope py_scope with py.
Notation "x <- c ;; k" := (bind c (fun x => k))
  (at level 61, c at next level, right associativity) : py_scope.
Notation "c ;;; k" := (bind c (fun _ => k))
  (at level 61, right associativity) : py_scope.
Local Open Scope py_scope.

Definition get_self : M ApiContext := fun st => (Ok (self st), st).

(** [datetime.datetime.now()] *)
Definition datetime_now : M Z :=
  fun st =>
    let w := world st in
    (Ok (clock w (occurrences is_ClockRead (trace w))),
     mkState (record ClockRead w) (self st)).

(** The reading the next call of [datetime.datetime.now()] will give. *)
Definition current_time (st : State) : Z :=
  clock (world st) (occurrences is_ClockRead (trace (world st))).

(** [self._session_context = v] *)
Definition set_session_context (v : option SessionContext.t) : M unit :=
  fun st =>
    let c := self st in
    (Ok tt,
     mkState (world st)
             (mkApiContext (_environment_type c) (_api_key c)
                           (_installation_context c) v (_proxy_url c))).

(** ** [ApiContext]: properties *)

Definition _TIME_TO_SESSION_EXPIRY_MINIMUM_SECONDS : Z := 30.
Definition _SESSION_ID_DUMMY : Z := 0.

Definition environment_type (c : ApiContext) := _environment_type c.
Definition api_key (c : ApiContext) := _api_key c.
Definition installation_context (c : ApiContext) := _installation_context c.
Definition session_context (c : ApiContext) := _session_context c.
Definition proxy_url (c : ApiContext) := _proxy_url c.

Definition token (c : ApiContext) : option string :=
  match _session_context c with
  | Some sc => Some (SessionContext.token sc)
  | None =>
      match _installation_context c with
      | Some ic => Some (InstallationContext.token ic)
      | None => None
      end
  end.

(** ** [ApiContext]: session life cycle *)

Definition is_session_active : M bool :=
  c <- get_self ;;
  match session_context c with
  | None => ret false
  | Some sc =>
      time_now <- datetime_now ;;
      let time_to_expiry :=
        datetime.sub (SessionContext.expiry_time sc) time_now in
      time_to_expiry_minimum <-
        lift (datetime.timedelta _TIME_TO_SESSION_EXPIRY_MINIMUM_SECONDS) ;;
      ret (time_to_expiry >? time_to_expiry_minimum)
  end.

(** [SessionServer.create(self).value]: one POST to the session-server
    endpoint carrying the api key as secret.  The transport and the
    converter are collaborators outside the sources at hand; the world
    supplies the decoded reply, or the exception the call raises. *)
Definition SessionServer_create : M SessionServer.t :=
  fun st =>
    let w := world st in
    (session_server_reply w (occurrences is_SessionServerPost (trace w)),
     mkState (record (SessionServerPost (api_key (self st))) w) (self st)).

(** [endpoint.Session.delete(session_id)]: one DELETE to the session
    endpoint; the generated endpoint module is outside the sources at hand,
    the world supplies whether the call returns or raises. *)
Definition Session_delete (session_id : Z) : M unit :=
  fun st =>
    let w := world st in
    (session_delete_reply w (occurrences is_SessionDelete (trace w)),
     mkState (record (SessionDelete session_id) w) (self st)).

Definition _get_session_timeout_seconds (session_server : SessionServer.t)
  : result Z :=
  match SessionServer.user_company session_server with
  | Some company => Ok (User.session_timeout company)
  | None =>
      match SessionServer.user_person session_server with
      | Some person => Ok (User.session_timeout person)
      | None =>
          match SessionServer.user_api_key session_server with
          | Some key =>
              result_bind
                (UserApiKeyAnchoredUser.get_referenced_object
                   (UserApiKey.requested_by_user key))
                (fun referenced => Ok (User.session_timeout referenced))
          | None => Raise BunqException
          end
      end
  end.

Definition _get_expiry_timestamp (session_server : SessionServer.t) : M Z :=
  timeout_seconds <- lift (_get_session_timeout_seconds session_server) ;;
  time_now <- datetime_now ;;
  delta <- lift (datetime.timedelta timeout_seconds) ;;
  lift (datetime.add time_now delta).

Definition _initialize_session : M unit :=
  session_server <- SessionServer_create ;;
  let token := SessionToken.token (SessionServer.token session_server) in
  expiry_time <- _get_expiry_timestamp session_server ;;
  user <- lift (SessionServer.get_referenced_user session_server) ;;
  let user_id := User.id_ user in
  set_session_context (Some (SessionContext.mk token expiry_time user_id)).

Definition _drop_session_context : M unit := set_session_context None.

Definition reset_session : M unit :=
  _drop_session_context ;;;
  _initialize_session.

Definition ensure_session_active : M bool :=
  active <- is_session_active ;;
  if negb active
  then reset_session ;;; ret true
  else ret false.

Definition _delete_session : M unit := Session_delete _SESSION_ID_DUMMY.

Definition close_session : M unit :=
  _delete_session ;;;
  _drop_session_context.

(** [ApiContext.__eq__] *)
Definition option_string_eqb (a b : option string) : bool :=
  match a, b with
  | Some x, Some y => String.eqb x y
  | None, None => true
  | _, _ => false
  end.

Definition ApiContext_eq (a other : ApiContext) : bool :=
  option_string_eqb (token a) (token other)
  && String.eqb (api_key a) (api_key other)
  && ApiEnvironmentType_eqb (environment_type a) (environment_type other).

(** ** Decoded JSON, as Python holds it

    A [dict] keeps its insertion order, which iteration exposes, so it is an
    association list; a [float] is kept as its literal, the unwrapping code
    never computes with one.  A [str] is its sequence of characters. *)

#[local] Set Warnings "-register-all".
Inductive json : Type :=
| JNull
| JBool (b : bool)
| JInt (n : Z)
| JFloat (literal : string)
| JStr (s : string)
| JList (items : list json)
| JDict (items : list (string * json)).

Fixpoint dict_get (key : string) (items : list (string * json))
  : option json :=
  match items with
  | [] => None
  | (k, v) :: rest => if String.eqb k key then Some v else dict_get key rest
  end.

(** Python sequence indexing, negative indices counting from the end. *)
Definition seq_index {A} (l : list A) (i : Z) : option A :=
  let n := Z.of_nat (List.length l) in
  if (0 <=? i) && (i <? n) then nth_error l (Z.to_nat i)
  else if (- n <=? i) && (i <? 0) then nth_error l (Z.to_nat (n + i))
  else None.

Definition chars (s : string) : list json :=
  List.map (fun c => JStr (String c EmptyString)) (list_ascii_of_string s).

(** [v[k]] *)
Definition py_getitem (v : json) (k : subscript) : result json :=
  match v, k with
  | JDict items, SubStr key =>
      match dict_get key items with
      | Some x => Ok x
      | None => Raise (KeyError k)
      end
  | JDict _, SubInt _ => Raise (KeyError k)
  | JList items, SubInt i =>
      match seq_index items i with
      | Some x => Ok x
      | None => Raise IndexError
      end
  | JStr s, SubInt i =>
      match seq_index (chars s) i with
      | Some x => Ok x
      | None => Raise IndexError
      end
  | _, _ => Raise TypeError
  end.

(** The items [for item in v] runs through. *)
Definition py_iter (v : json) : result (list json) :=
  match v with
  | JList items => Ok items
  | JDict items => Ok (List.map (fun kv => JStr (fst kv)) items)
  | JStr s => Ok (chars s)
  | _ => Raise TypeError
  end.

(** ** [bunq/sdk/model/model.py] *)

Definition Headers : Type := list (string * string).

Module BunqResponseRaw.
Record t : Type := mk {
    body_bytes : list Byte.byte;
    headers : Headers
  }.
End BunqResponseRaw.

Module BunqResponse.
Record t (T : Type) : Type := mk {
    value : T;
    headers : Headers
  }.
Arguments mk {T} value headers.
Arguments value {T} _.
Arguments headers {T} _.
End BunqResponse.

Module Id.
Record t : Type := mk { _id_ : option Z }.
Definition id_ (i : t) : option Z := _id_ i.
End Id.

Module Uuid.
Record t : Type := mk { _uuid : option string }.
Definition uuid (u : t) : option string := _uuid u.
End Uuid.

Definition _FIELD_RESPONSE : string := "Response".
Definition _FIELD_ID : string := "Id".
Definition _FIELD_UUID : string := "Uuid".
Definition _INDEX_FIRST : Z := 0.

Definition _unwrap_response_single (obj : json) (wrapper : option string)
  : result json :=
  match wrapper with
  | Some w =>
      result_bind (py_getitem obj (SubStr _FIELD_RESPONSE)) (fun response =>
      result_bind (py_getitem response (SubInt _INDEX_FIRST)) (fun first =>
      py_getitem first (SubStr w)))
  | None =>
      result_bind (py_getitem obj (SubStr _FIELD_RESPONSE)) (fun response =>
      py_getitem response (SubInt _INDEX_FIRST))
  end.

(** The class methods of [BunqModel].  [bytes.decode] and the converter
    ([bunq.sdk.json.converter], outside the sources at hand) are
    parameters; [cls] is the class the method is called on. *)
Section BunqModel.

Variable bytes_decode : list Byte.byte -> result string.
Variable json_to_class_dict : string -> result json.
Variable cls : Type.
Variable deserialize : json -> result cls.
Variable deserialize_Id : json -> result Id.t.
Variable deserialize_Uuid : json -> result Uuid.t.

Definition body_as_dict (response_raw : BunqResponseRaw.t) : result json :=
    result_bind (bytes_decode (BunqResponseRaw.body_bytes response_raw))
                json_to_class_dict.

Definition _from_json_array_nested (response_raw : BunqResponseRaw.t)
    : result (BunqResponse.t cls) :=
    result_bind (body_as_dict response_raw) (fun obj =>
    result_bind (py_getitem obj (SubStr _FIELD_RESPONSE)) (fun response =>
    result_bind (deserialize response) (fun value =>
    Ok (BunqResponse.mk value (BunqResponseRaw.headers response_raw))))).

Definition _from_json (response_raw : BunqResponseRaw.t)
             (wrapper : option string) : result (BunqResponse.t cls) :=
    result_bind (body_as_dict response_raw) (fun obj =>
    result_bind (_unwrap_response_single obj wrapper) (fun unwrapped =>
    result_bind (deserialize unwrapped) (fun value =>
    Ok (BunqResponse.mk value (BunqResponseRaw.headers response_raw))))).

Definition _process_for_id (response_raw : BunqResponseRaw.t)
    : result (BunqResponse.t (option Z)) :=
    result_bind (body_as_dict response_raw) (fun obj =>
    result_bind (_unwrap_response_single obj (Some _FIELD_ID)) (fun unwrapped =>
    result_bind (deserialize_Id unwrapped) (fun id_ =>
    Ok (BunqResponse.mk (Id.id_ id_)
                        (BunqResponseRaw.headers response_raw))))).

Definition _process_for_uuid (response_raw : BunqResponseRaw.t)
    : result (BunqResponse.t (option string)) :=
    result_bind (body_as_dict response_raw) (fun obj =>
    result_bind (_unwrap_response_single obj (Some _FIELD_UUID))
                (fun unwrapped =>
    result_bind (deserialize_Uuid unwrapped) (fun uuid =>
    Ok (BunqResponse.mk (Uuid.uuid uuid)
                        (BunqResponseRaw.headers response_raw))))).

  (** [item if wrapper is None else item[wrapper]] *)
Definition item_unwrapped (wrapper : option string) (item : json)
    : result json :=
    match wrapper with
    | None => Ok item
    | Some w => py_getitem item (SubStr w)
    end.

  (** The body of [for item in array], threaded over the remaining items
      with the list built so far. *)
Fixpoint for_item_in (wrapper : option string) (remaining : list json)
           (array_deserialized : list cls) : result (list cls) :=
    match remaining with
    | [] => Ok array_deserialized
    | item :: rest =>
        result_bind (item_unwrapped wrapper item) (fun unwrapped =>
        result_bind (deserialize unwrapped) (fun item_deserialized =>
        for_item_in wrapper rest (array_deserialized ++ [item_deserialized])))
    end.

Definition _from_json_list (response_raw : BunqResponseRaw.t)
             (wrapper : option string) : result (BunqResponse.t (list cls)) :=
    result_bind (body_as_dict response_raw) (fun obj =>
    result_bind (py_getitem obj (SubStr _FIELD_RESPONSE)) (fun array =>
    result_bind (py_iter array) (fun items =>
    result_bind (for_item_in wrapper items []) (fun array_deserialized =>
    Ok (BunqResponse.mk array_deserialized
                        (BunqResponseRaw.headers response_raw)))))).

  (** The list unwrapping as the specification words it: every element of
      the array is mapped, in order, through the optional wrapper-key
      indexing (and then decoded). *)
Fixpoint unwrap_list_spec (wrapper : option string) (array : list json)
    : result (list cls) :=
    match array with
    | [] => Ok []
    | item :: rest =>
        result_bind (item_unwrapped wrapper item) (fun unwrapped =>
        result_bind (deserialize unwrapped) (fun v =>
        result_bind (unwrap_list_spec wrapper rest) (fun vs =>
        Ok (v :: vs))))
    end.

End BunqModel.

(** ** Quantities the statements below speak about *)

(** The minimum-validity window as a [timedelta]. *)
Definition window : Z :=
  _TIME_TO_SESSION_EXPIRY_MINIMUM_SECONDS * datetime.MICROSECONDS_PER_SECOND.

(** How many session-server POSTs and session DELETEs happened so far. *)
Definition posts (st : State) : nat :=
  occurrences is_SessionServerPost (trace (world st)).
Definition deletes (st : State) : nat :=
  occurrences is_SessionDelete (trace (world st)).

(** The state after one more effect. *)
Definition after (e : Event) (st : State) : State :=
  mkState (record e (world st)) (self st).

(** The context with its session slot replaced. *)
Definition with_session (v : option SessionContext.t) (c : ApiContext)
  : ApiContext :=
  mkApiContext (_environment_type c) (_api_key c) (_installation_context c)
               v (_proxy_url c).

(** Everything of a context except its session slot. *)
Definition same_identity (c c' : ApiContext) : Prop :=
  environment_type c' = environment_type c /\
  api_key c' = api_key c /\
  installation_context c' = installation_context c /\
  proxy_url c' = proxy_url c.

(** A decoded JSON value that is neither a container nor a string. *)
Definition is_scalar (v : json) : bool :=
  match v with
  | JNull | JBool _ | JInt _ | JFloat _ => true
  | JStr _ | JList _ | JDict _ => false
  end.

(** ** Concrete scenarios

    A sandbox context that went through installation, a clock that starts
    in the year 2025 and advances one second per reading, and a server
    whose session-server reply names a company user. *)

Definition scenario_start : Z := 63900000000 * datetime.MICROSECONDS_PER_SECOND.

Definition ticking_clock (n : nat) : Z :=
  scenario_start + Z.of_nat n * datetime.MICROSECONDS_PER_SECOND.

Definition company_reply (timeout : Z) : SessionServer.t :=
  let company := User.mk 7 timeout in
  SessionServer.mk (SessionToken.mk "session-token")
                   (Some company) None None (Ok company).

Definition anonymous_reply : SessionServer.t :=
  SessionServer.mk (SessionToken.mk "session-token")
                   None None None (Raise BunqException).

Definition scenario_world (reply : result SessionServer.t)
           (deleted : result unit) : World :=
  mkWorld ticking_clock (fun _ => reply) (fun _ => deleted) [].

Definition installed_context (session : option SessionContext.t)
  : ApiContext :=
  mkApiContext SANDBOX "api-key"
    (Some (InstallationContext.mk "installation-token"
             "client-private-key" "server-public-key"))
    session None.

(** A session that expires [seconds] after the scenario starts. *)
Definition session_expiring_in (seconds : Z) : SessionContext.t :=
  SessionContext.mk "old-session-token"
    (scenario_start + seconds * datetime.MICROSECONDS_PER_SECOND) 7.

(** Response bodies, as text and as decoded.  [quoted s] is [s] between
    double quotes. *)

Definition quoted (s : string) : string :=
  String "034"%char (s ++ String "034"%char EmptyString)%string.

(** The body [{"Response":[{"Id":{"id":42}}]}]. *)
Definition id_envelope_text : string :=
  ("{" ++ quoted "Response" ++ ":[{" ++ quoted "Id" ++ ":{" ++ quoted "id"
       ++ ":42}}]}")%string.
Definition id_envelope : json :=
  JDict [("Response", JList [JDict [("Id", JDict [("id", JInt 42)])]])].

(** The body [{"Response":[{"X":{"a":1}},{"X":{"a":2}}]}]. *)
Definition list_envelope_text : string :=
  ("{" ++ quoted "Response" ++ ":[{" ++ quoted "X" ++ ":{" ++ quoted "a"
       ++ ":1}},{" ++ quoted "X" ++ ":{" ++ quoted "a" ++ ":2}}]}")%string.
Definition list_envelope : json :=
  JDict [("Response",
          JList [JDict [("X", JDict [("a", JInt 1)])];
                 JDict [("X", JDict [("a", JInt 2)])]])].

(** The body [{"Error":[{"error_description":"denied"}]}]. *)
Definition error_envelope_text : string :=
  ("{" ++ quoted "Error" ++ ":[{" ++ quoted "error_description" ++ ":"
       ++ quoted "denied" ++ "}]}")%string.
Definition error_envelope_fields : list (string * json) :=
  [("Error", JList [JDict [("error_description", JStr "denied")]])].

(** A stand-in converter that knows the three bodies above, a decoder for
    ASCII bodies, and a deserializer that hands the decoded JSON back. *)
Definition stub_json_to_class_dict (text : string) : result json :=
  if String.eqb text id_envelope_text then Ok id_envelope
  else if String.eqb text list_envelope_text then Ok list_envelope
  else if String.eqb text error_envelope_text
       then Ok (JDict error_envelope_fields)
  else Raise (ExternalError "JSONDecodeError").

Definition stub_bytes_decode (body : list Byte.byte) : result string :=
  Ok (string_of_list_byte body).

Definition stub_deserialize_Id (v : json) : result Id.t :=
  match v with
  | JDict items =>
      match dict_get "id" items with
      | Some (JInt n) => Ok (Id.mk (Some n))
      | _ => Ok (Id.mk None)
      end
  | _ => Raise (ExternalError "deserialize")
  end.

Definition stub_deserialize_json (v : json) : result json := Ok v.

Definition raw_response (text : string) : BunqResponseRaw.t :=
  BunqResponseRaw.mk (list_byte_of_string text)
                     [("X-Bunq-Client-Request-Id", "1")].

(** More bodies: an empty array, an array whose second element lacks the
    key ["X"], and a ["Response"] that is [null]; and a stand-in converter
    that looks the body text up in a table. *)

Definition empty_envelope_text : string :=
  ("{" ++ quoted "Response" ++ ":[]}")%string.
Definition empty_envelope_fields : list (string * json) :=
  [("Response", JList [])].

Definition mixed_envelope_text : string :=
  ("{" ++ quoted "Response" ++ ":[{" ++ quoted "X" ++ ":{" ++ quoted "a"
       ++ ":1}},{" ++ quoted "Y" ++ ":{" ++ quoted "a" ++ ":2}},{"
       ++ quoted "X" ++ ":{" ++ quoted "a" ++ ":3}}]}")%string.
Definition mixed_envelope_fields : list (string * json) :=
  [("Response",
    JList [JDict [("X", JDict [("a", JInt 1)])];
           JDict [("Y", JDict [("a", JInt 2)])];
           JDict [("X", JDict [("a", JInt 3)])]])].

Definition null_envelope_text : string :=
  ("{" ++ quoted "Response" ++ ":null}")%string.
Definition null_envelope_fields : list (string * json) :=
  [("Response", JNull)].

Definition envelope_table : list (string * json) :=
  [(id_envelope_text, id_envelope);
   (list_envelope_text, list_envelope);
   (error_envelope_text, JDict error_envelope_fields);
   (empty_envelope_text, JDict empty_envelope_fields);
   (mixed_envelope_text, JDict mixed_envelope_fields);
   (null_envelope_text, JDict null_envelope_fields)].

Definition table_json_to_class_dict (text : string) : result json :=
  match dict_get text envelope_table with
  | Some obj => Ok obj
  | None => Raise (ExternalError "JSONDecodeError")
  end.

Definition stub_deserialize_Uuid (v : json) : result Uuid.t :=
  match v with
  | JDict items =>
      match dict_get "uuid" items with
      | Some (JStr u) => Ok (Uuid.mk (Some u))
      | _ => Ok (Uuid.mk None)
      end
  | _ => Raise (ExternalError "deserialize")
  end.

(** ** Constructing a context

    [ApiContext.__init__] and the three phases of [_initialize].  The
    collaborators of the first two phases ([bunq.sdk.security],
    [Cryptodome], the installation and device-server endpoints) are outside
    the sources at hand and are parameters; each is consulted once per
    construction and is taken not to modify the object it is handed.
    [Installation] is the class of [model.py]. *)

Module PublicKeyServer.
Record t : Type := mk { server_public_key : string }.
End PublicKeyServer.

Module Installation.
Record t : Type := mk {
    id_ : Id.t;
    token : SessionToken.t;
    server_public_key : PublicKeyServer.t
  }.
End Installation.

(** [self._installation_context = v] *)
Definition set_installation_context (v : option InstallationContext.t)
  : M unit :=
  fun st =>
    let c := self st in
    (Ok tt,
     mkState (world st)
             (mkApiContext (_environment_type c) (_api_key c)
                           v (_session_context c) (_proxy_url c))).

Section Construction.

Variable generate_rsa_private_key : result RsaKey.
Variable publickey : RsaKey -> RsaKey.
Variable public_key_to_string : RsaKey -> string.
Variable Installation_create :
  ApiContext -> string -> result (BunqResponse.t Installation.t).
Variable RSA_import_key : string -> result RsaKey.
Variable DeviceServerInternal_create :
  string -> string -> list string -> ApiContext -> result unit.

Definition _initialize_installation : M unit :=
  private_key_client <- lift generate_rsa_private_key ;;
  c <- get_self ;;
  response <-
    lift (Installation_create
            c (public_key_to_string (publickey private_key_client))) ;;
  let installation := BunqResponse.value response in
  let token := SessionToken.token (Installation.token installation) in
  let public_key_server_string :=
    PublicKeyServer.server_public_key
      (Installation.server_public_key installation) in
  public_key_server <- lift (RSA_import_key public_key_server_string) ;;
  set_installation_context
    (Some (InstallationContext.mk token private_key_client
                                  public_key_server)).

Definition _register_device (device_description : string)
           (permitted_ips : list string) : M unit :=
  c <- get_self ;;
  lift (DeviceServerInternal_create
          device_description (api_key c) permitted_ips c).

Definition _initialize (device_description : string)
           (permitted_ips : list string) : M unit :=
  _initialize_installation ;;;
  _register_device device_description permitted_ips ;;;
  _initialize_session.

(** [ApiContext(environment_type, api_key, device_description,
    permitted_ips, proxy_url)], run in world [w]: the outcome, and the
    state in which the object under construction was left. *)
Definition ApiContext_init (environment_type : ApiEnvironmentType)
           (api_key : string) (device_description : string)
           (permitted_ips : option (list string))
           (proxy_url : option string) (w : World) : result unit * State :=
  let permitted_ips :=
    match permitted_ips with
    | None => []
    | Some ips => ips
    end in
  _initialize device_description permitted_ips
              (mkState w (mkApiContext environment_type api_key
                                       None None proxy_url)).

End Construction.

(** Stand-ins for the construction collaborators: the server accepts any
    installation, and registers a device only for a bearer token it
    issued. *)
Definition stub_publickey (private_key : RsaKey) : RsaKey :=
  ("public-of-" ++ private_key)%string.

Definition stub_public_key_to_string (key : RsaKey) : string := key.

Definition stub_Installation_create (c : ApiContext) (client_key : string)
  : result (BunqResponse.t Installation.t) :=
  Ok (BunqResponse.mk
        (Installation.mk (Id.mk (Some 1))
                         (SessionToken.mk "installation-token")
                         (PublicKeyServer.mk "server-public-key"))
        []).

Definition stub_RSA_import_key (pem : string) : result RsaKey := Ok pem.

Definition stub_DeviceServerInternal_create (description secret : string)
           (permitted_ips : list string) (c : ApiContext) : result unit :=
  if option_string_eqb (token c) (Some "installation-token")
  then Ok tt
  else Raise (ExternalError "unauthorized").

(** ** The liveness check *)

Lemma occurrences_app (p : Event -> bool) (l1 l2 : list Event) :
  occurrences p (l1 ++ l2) = (occurrences p l1 + occurrences p l2)%nat.
Proof.
  unfold occurrences. now rewrite filter_app, length_app.
Qed.

Lemma timedelta_minimum :
  datetime.timedelta _TIME_TO_SESSION_EXPIRY_MINIMUM_SECONDS = Ok window.
Proof. reflexivity. Qed.

(** [is_session_active] in closed form: no session, no clock reading;
    otherwise exactly one reading, compared against the expiry. *)
Lemma is_session_active_eq (st : State) :
  is_session_active st =
  match session_context (self st) with
  | None => (Ok false, st)
  | Some sc =>
      (Ok (SessionContext.expiry_time sc - current_time st >? window),
       after ClockRead st)
  end.
Proof.
  unfold is_session_active, bind, get_self.
  destruct (session_context (self st)) as [sc|]; [|reflexivity].
  unfold datetime_now, lift, ret. rewrite timedelta_minimum.
  reflexivity.
Qed.

(** C1: for a context holding a session with expiry time E,
    [is_session_active] returns [False] whenever the clock reads
    [now >= E - 30s] and [True] otherwise; the 30 seconds are the constant
    [_TIME_TO_SESSION_EXPIRY_MINIMUM_SECONDS]. *)
Theorem is_session_active_window :
  _TIME_TO_SESSION_EXPIRY_MINIMUM_SECONDS = 30 /\
  window = 30 * 1000000 /\
  forall (st : State) (sc : SessionContext.t),
    session_context (self st) = Some sc ->
    let E := SessionContext.expiry_time sc in
    let now := current_time st in
    (now >= E - window -> fst (is_session_active st) = Ok false) /\
    (now < E - window -> fst (is_session_active st) = Ok true).
Proof.
  split; [reflexivity|]. split; [reflexivity|].
  intros st sc Hsc E now. rewrite is_session_active_eq, Hsc. cbn [fst].
  split; intros Hnow; f_equal.
  - rewrite Z.gtb_ltb. apply Z.ltb_ge. subst E now. lia.
  - rewrite Z.gtb_ltb. apply Z.ltb_lt. subst E now. lia.
Qed.

Lemma is_session_active_window_witness :
  fst (is_session_active
         (mkState (scenario_world (Ok (company_reply 3600)) (Ok tt))
                  (installed_context (Some (session_expiring_in 30)))))
  = Ok false
  /\
  fst (is_session_active
         (mkState (scenario_world (Ok (company_reply 3600)) (Ok tt))
                  (installed_context (Some (session_expiring_in 31)))))
  = Ok true.
Proof.
  split.
  - apply (proj1 (proj2 (proj2 is_session_active_window)
                   (mkState (scenario_world (Ok (company_reply 3600)) (Ok tt))
                      (installed_context (Some (session_expiring_in 30))))
                   (session_expiring_in 30) eq_refl)).
    vm_compute. discriminate.
  - apply (proj2 (proj2 (proj2 is_session_active_window)
                   (mkState (scenario_world (Ok (company_reply 3600)) (Ok tt))
                      (installed_context (Some (session_expiring_in 31))))
                   (session_expiring_in 31) eq_refl)).
    vm_compute. reflexivity.
Defined.

(** C10: with no session context, [is_session_active] returns [False]
    without reading the clock and without raising: the state, trace
    included, is untouched. *)
Theorem is_session_active_no_session (st : State) :
  session_context (self st) = None ->
  is_session_active st = (Ok false, st) /\
  occurrences is_ClockRead (trace (world (snd (is_session_active st)))) =
  occurrences is_ClockRead (trace (world st)).
Proof.
  intros Hnone. rewrite is_session_active_eq, Hnone. split; reflexivity.
Qed.

Lemma is_session_active_no_session_witness :
  is_session_active
    (mkState (scenario_world (Ok (company_reply 3600)) (Ok tt))
             (installed_context None))
  = (Ok false,
     mkState (scenario_world (Ok (company_reply 3600)) (Ok tt))
             (installed_context None)).
Proof.
  apply (proj1 (is_session_active_no_session
                  (mkState (scenario_world (Ok (company_reply 3600)) (Ok tt))
                           (installed_context None))
                  eq_refl)).
Defined.

(** ** Opening, renewing and closing a session *)

Ltac unfold_monad :=
  unfold bind, ret, lift, raise, get_self, set_session_context,
    datetime_now, SessionServer_create, Session_delete in *.

Lemma reads_after_post (secret : string) (tr : list Event) :
  occurrences is_ClockRead (tr ++ [SessionServerPost secret]) =
  occurrences is_ClockRead tr.
Proof. rewrite occurrences_app. cbn. now rewrite Nat.add_0_r. Qed.

Lemma current_time_after_post (secret : string) (st : State) :
  current_time (after (SessionServerPost secret) st) = current_time st.
Proof.
  unfold current_time, after, record. cbn [world trace].
  rewrite occurrences_app. cbn. now rewrite Nat.add_0_r.
Qed.

Lemma posts_after_post (secret : string) (st : State) :
  posts (after (SessionServerPost secret) st) = S (posts st).
Proof.
  unfold posts, after, record. cbn [world trace].
  rewrite occurrences_app. cbn. lia.
Qed.

Lemma posts_after_clock (st : State) :
  posts (after ClockRead st) = posts st.
Proof.
  unfold posts, after, record. cbn [world trace].
  rewrite occurrences_app. cbn. lia.
Qed.

Lemma deletes_after_post (secret : string) (st : State) :
  deletes (after (SessionServerPost secret) st) = deletes st.
Proof.
  unfold deletes, after, record. cbn [world trace].
  rewrite occurrences_app. cbn. lia.
Qed.

Lemma deletes_after_clock (st : State) :
  deletes (after ClockRead st) = deletes st.
Proof.
  unfold deletes, after, record. cbn [world trace].
  rewrite occurrences_app. cbn. lia.
Qed.

Lemma deletes_after_delete (session_id : Z) (st : State) :
  deletes (after (SessionDelete session_id) st) = S (deletes st).
Proof.
  unfold deletes, after, record. cbn [world trace].
  rewrite occurrences_app. cbn. lia.
Qed.

(** What a session open that returns has done: one POST, then one clock
    reading from which the expiry is computed, then the context holds the
    new session. *)
Lemma _initialize_session_returns (st st' : State) :
  _initialize_session st = (Ok tt, st') ->
  exists ss timeout user,
    session_server_reply (world st) (posts st) = Ok ss /\
    _get_session_timeout_seconds ss = Ok timeout /\
    SessionServer.get_referenced_user ss = Ok user /\
    st' =
    mkState
      (world (after ClockRead (after (SessionServerPost (api_key (self st))) st)))
      (with_session
         (Some (SessionContext.mk
                  (SessionToken.token (SessionServer.token ss))
                  (current_time st
                   + timeout * datetime.MICROSECONDS_PER_SECOND)
                  (User.id_ user)))
         (self st)).
Proof.
  unfold _initialize_session, _get_expiry_timestamp. unfold_monad.
  fold (posts st).
  destruct (session_server_reply (world st) (posts st)) as [ss|e] eqn:Hreply;
    [|discriminate].
  destruct (_get_session_timeout_seconds ss) as [timeout|e] eqn:Htimeout;
    [|discriminate].
  cbn [world self].
  unfold datetime.timedelta, datetime.add.
  destruct (Z.abs _ >? _); [discriminate|].
  destruct (_ || _); [discriminate|].
  destruct (SessionServer.get_referenced_user ss) as [user|e] eqn:Huser;
    [|discriminate].
  intros H. injection H as <-.
  exists ss, timeout, user. repeat split; try assumption.
  unfold with_session, after, current_time.
  cbn [world self record clock trace].
  rewrite reads_after_post. reflexivity.
Qed.

(** A session open returns whenever the server replies, the reply names a
    user with a timeout that keeps the expiry a representable datetime. *)
Lemma _initialize_session_total (st : State) ss timeout user :
  session_server_reply (world st) (posts st) = Ok ss ->
  _get_session_timeout_seconds ss = Ok timeout ->
  SessionServer.get_referenced_user ss = Ok user ->
  0 <= current_time st <= datetime.max ->
  0 <= timeout ->
  current_time st + timeout * datetime.MICROSECONDS_PER_SECOND
    <= datetime.max ->
  exists st', _initialize_session st = (Ok tt, st').
Proof.
  intros Hreply Htimeout Huser Hnow Hpos Hfit.
  unfold _initialize_session, _get_expiry_timestamp. unfold_monad.
  fold (posts st). rewrite Hreply, Htimeout.
  cbn [world self record clock trace].
  rewrite reads_after_post. fold (current_time st).
  unfold datetime.timedelta, datetime.add.
  assert (Hdays : (Z.abs (timeout / datetime.SECONDS_PER_DAY)
                   >? datetime.MAX_DELTA_DAYS) = false).
  { rewrite Z.gtb_ltb. apply Z.ltb_ge.
    unfold datetime.max, datetime.SECONDS_PER_DAY, datetime.MAX_DELTA_DAYS,
      datetime.MICROSECONDS_PER_SECOND in *.
    rewrite Z.abs_eq by (apply Z.div_pos; lia).
    assert (timeout / 86400 <= 3652059)
      by (apply Z.div_le_upper_bound; lia).
    lia. }
  rewrite Hdays.
  assert (Hrange :
            (current_time st + timeout * datetime.MICROSECONDS_PER_SECOND
             <? datetime.min)
            || (datetime.max
                <? current_time st
                   + timeout * datetime.MICROSECONDS_PER_SECOND) = false).
  { apply orb_false_iff. split; apply Z.ltb_ge; unfold datetime.min.
    - unfold datetime.MICROSECONDS_PER_SECOND. lia.
    - assumption. }
  rewrite Hrange, Huser. eexists. reflexivity.
Qed.

Lemma reset_session_eq (st : State) :
  reset_session st =
  _initialize_session (mkState (world st) (with_session None (self st))).
Proof. reflexivity. Qed.

(** Whatever its outcome, a session open performs one POST, possibly
    followed by one clock reading, and touches nothing but the session
    slot of the context. *)
Lemma _initialize_session_frame (st : State) :
  let st' := snd (_initialize_session st) in
  same_identity (self st) (self st') /\
  (exists evs,
      trace (world st') =
      trace (world st) ++ SessionServerPost (api_key (self st)) :: evs /\
      (evs = [] \/ evs = [ClockRead])).
Proof.
  unfold _initialize_session, _get_expiry_timestamp. unfold_monad.
  unfold same_identity, environment_type, api_key, installation_context,
    proxy_url.
  destruct (session_server_reply _ _) as [ss|e]; cbn [snd world self].
  2:{ split; [tauto|]. exists []. cbn. split; [reflexivity|tauto]. }
  destruct (_get_session_timeout_seconds ss) as [timeout|e];
    cbn [snd world self].
  2:{ split; [tauto|]. exists []. cbn. split; [reflexivity|tauto]. }
  assert (Hevs :
            (trace (world st) ++ [SessionServerPost (_api_key (self st))])
              ++ [ClockRead] =
            trace (world st)
              ++ SessionServerPost (_api_key (self st)) :: [ClockRead])
    by now rewrite <- app_assoc.
  destruct (datetime.timedelta timeout) as [delta|e]; cbn [snd world self].
  2:{ split; [tauto|]. exists [ClockRead]. cbn. split; [exact Hevs|tauto]. }
  destruct (datetime.add _ _) as [expiry|e]; cbn [snd world self].
  2:{ split; [tauto|]. exists [ClockRead]. cbn. split; [exact Hevs|tauto]. }
  destruct (SessionServer.get_referenced_user ss) as [user|e];
    cbn [snd world self _environment_type _api_key _installation_context
         _proxy_url].
  all: split; [tauto|]; exists [ClockRead]; cbn; split; [exact Hevs|tauto].
Qed.

Lemma occurrences_delete_post_clock (tr evs : list Event) (secret : string) :
  evs = [] \/ evs = [ClockRead] ->
  occurrences is_SessionDelete (tr ++ SessionServerPost secret :: evs) =
  occurrences is_SessionDelete tr.
Proof.
  intros [-> | ->]; rewrite occurrences_app; cbn; lia.
Qed.

Lemma occurrences_post_post_clock (tr evs : list Event) (secret : string) :
  evs = [] \/ evs = [ClockRead] ->
  occurrences is_SessionServerPost (tr ++ SessionServerPost secret :: evs) =
  S (occurrences is_SessionServerPost tr).
Proof.
  intros [-> | ->]; rewrite occurrences_app; cbn; lia.
Qed.

(** [close_session] in closed form. *)
Lemma close_session_eq (st : State) :
  close_session st =
  match session_delete_reply (world st) (deletes st) with
  | Ok _ =>
      (Ok tt,
       mkState (record (SessionDelete _SESSION_ID_DUMMY) (world st))
               (with_session None (self st)))
  | Raise e => (Raise e, after (SessionDelete _SESSION_ID_DUMMY) st)
  end.
Proof.
  unfold close_session, _delete_session, _drop_session_context.
  unfold_monad. fold (deletes st).
  destruct (session_delete_reply (world st) (deletes st)); reflexivity.
Qed.

(** C3, as the code has it: [close_session] first calls the remote
    session-delete endpoint.  When that call returns, the session slot is
    cleared and the rest of the context is kept; when it raises, the
    exception reaches the caller and the context, session included, is left
    as it was. *)
Theorem close_session_outcome (st : State) :
  let st' := snd (close_session st) in
  trace (world st') =
  trace (world st) ++ [SessionDelete _SESSION_ID_DUMMY] /\
  same_identity (self st) (self st') /\
  match session_delete_reply (world st) (deletes st) with
  | Ok _ =>
      fst (close_session st) = Ok tt /\
      session_context (self st') = None
  | Raise e =>
      fst (close_session st) = Raise e /\
      self st' = self st
  end.
Proof.
  rewrite close_session_eq.
  destruct (session_delete_reply (world st) (deletes st)) as [[]|e];
    cbn [fst snd world self after record trace];
    (split; [reflexivity|]); (split; [repeat split|]); split; reflexivity.
Qed.

(** C3 fails as stated: with a session held and a delete endpoint that
    raises, [close_session] raises and the session context is still there. *)
Lemma close_session_delete_failure_keeps_session :
  fst (close_session
         (mkState (scenario_world (Ok (company_reply 3600))
                                  (Raise (ExternalError "delete refused")))
                  (installed_context (Some (session_expiring_in 3600)))))
  = Raise (ExternalError "delete refused")
  /\
  session_context
    (self (snd (close_session
                  (mkState (scenario_world (Ok (company_reply 3600))
                              (Raise (ExternalError "delete refused")))
                     (installed_context
                        (Some (session_expiring_in 3600)))))))
  = Some (session_expiring_in 3600).
Proof. split; reflexivity. Qed.

(** C4: [reset_session] is a drop of the session slot followed by a session
    open; its effects are one session-server POST and at most one clock
    reading, never a session DELETE, and the environment, api key,
    installation context and proxy are as before.  The liveness check and
    [ensure_session_active] issue no DELETE either; [close_session]
    issues exactly one. *)
Theorem reset_session_no_remote_delete (st : State) :
  let dropped := snd (_drop_session_context st) in
  let st' := snd (reset_session st) in
  (world dropped = world st /\ session_context (self dropped) = None /\
   reset_session st = _initialize_session dropped) /\
  (exists evs,
      trace (world st') =
      trace (world st) ++ SessionServerPost (api_key (self st)) :: evs /\
      (evs = [] \/ evs = [ClockRead])) /\
  deletes st' = deletes st /\
  same_identity (self st) (self st') /\
  deletes (snd (is_session_active st)) = deletes st /\
  deletes (snd (ensure_session_active st)) = deletes st /\
  deletes (snd (close_session st)) = S (deletes st).
Proof.
  cbn zeta.
  pose proof (_initialize_session_frame
                (mkState (world st) (with_session None (self st))))
    as [Hid [evs [Htrace Hevs]]].
  rewrite <- reset_session_eq in Hid, Htrace. cbn [world self] in Hid, Htrace.
  assert (Hreset : deletes (snd (reset_session st)) = deletes st).
  { unfold deletes. rewrite Htrace.
    now apply occurrences_delete_post_clock. }
  split; [repeat split|]. split; [exists evs; split; assumption|].
  split; [exact Hreset|]. split; [exact Hid|].
  assert (Hactive : forall s, deletes (snd (is_session_active s)) = deletes s).
  { intros s. rewrite is_session_active_eq.
    destruct (session_context (self s)); cbn [snd];
      [apply deletes_after_clock|reflexivity]. }
  split; [apply Hactive|]. split.
  - unfold ensure_session_active, bind.
    destruct (is_session_active st) as [[[|]|e] st1] eqn:Hst1;
      cbn [negb snd]; try (rewrite <- (Hactive st), Hst1; reflexivity).
    unfold ret.
    pose proof (_initialize_session_frame
                  (mkState (world st1) (with_session None (self st1))))
      as [_ [evs1 [Htrace1 Hevs1]]].
    rewrite <- reset_session_eq in Htrace1. cbn [world self] in Htrace1.
    assert (Hd : deletes (snd (reset_session st1)) = deletes st).
    { unfold deletes at 1. rewrite Htrace1.
      rewrite (occurrences_delete_post_clock _ _ _ Hevs1).
      fold (deletes st1). rewrite <- (Hactive st), Hst1. reflexivity. }
    destruct (reset_session st1) as [[[]|e] st2]; exact Hd.
  - rewrite close_session_eq.
    destruct (session_delete_reply (world st) (deletes st));
      cbn [snd]; [|apply deletes_after_delete].
    unfold deletes. cbn [world record trace].
    rewrite occurrences_app. cbn. lia.
Qed.

(** The liveness check leaves the context and the server alone. *)
Lemma is_session_active_frame (st : State) :
  let st1 := snd (is_session_active st) in
  posts st1 = posts st /\
  session_server_reply (world st1) = session_server_reply (world st) /\
  self st1 = self st.
Proof.
  rewrite is_session_active_eq.
  destruct (session_context (self st)); cbn [snd].
  - split; [apply posts_after_clock|]. split; reflexivity.
  - repeat split.
Qed.

(** C2, as the code has it: when [ensure_session_active] returns, it
    returns [True] exactly when the session was not active at entry, which
    is exactly when it performed a reset (one more session-server POST).
    A session is then held, and [is_session_active] is [True] just when
    the next clock reading is still more than 30 seconds before that
    session's expiry; after a reset the expiry is the creation time plus
    the timeout the server declared, so the timeout has to exceed 30
    seconds plus the time elapsed since. *)
Theorem ensure_session_active_outcome (st st' : State) (b : bool) :
  ensure_session_active st = (Ok b, st') ->
  (b = true <-> fst (is_session_active st) = Ok false) /\
  (b = true <-> posts st' = S (posts st)) /\
  (b = false -> self st' = self st) /\
  exists sc,
    session_context (self st') = Some sc /\
    (fst (is_session_active st') = Ok true <->
     current_time st' < SessionContext.expiry_time sc - window) /\
    (b = true ->
     exists ss timeout,
       session_server_reply (world st) (posts st) = Ok ss /\
       _get_session_timeout_seconds ss = Ok timeout /\
       SessionContext.expiry_time sc =
       current_time (snd (is_session_active st))
       + timeout * datetime.MICROSECONDS_PER_SECOND).
Proof.
  assert (Hlive : forall s sc,
             session_context (self s) = Some sc ->
             fst (is_session_active s) = Ok true <->
             current_time s < SessionContext.expiry_time sc - window).
  { intros s sc Hsc. rewrite is_session_active_eq, Hsc. cbn [fst].
    rewrite Z.gtb_ltb. split.
    - intros H. injection H as H. apply Z.ltb_lt in H. lia.
    - intros H. f_equal. apply Z.ltb_lt. lia. }
  unfold ensure_session_active, bind.
  destruct (is_session_active st) as [[active|e] st1] eqn:Hcheck;
    [|discriminate].
  pose proof (is_session_active_frame st) as Hframe.
  rewrite Hcheck in Hframe. cbn [snd] in Hframe.
  destruct Hframe as (Hposts & Hworld & Hself).
  destruct active; cbn [negb fst snd].
  - (* active at entry: nothing is reset *)
    unfold ret. intros H. injection H as <- <-.
    rewrite is_session_active_eq in Hcheck.
    destruct (session_context (self st)) as [sc|] eqn:Hsc;
      [|discriminate].
    split; [split; discriminate|].
    split; [split; [discriminate|rewrite Hposts; lia]|].
    split; [intros _; exact Hself|].
    exists sc. split; [rewrite Hself; exact Hsc|]. split; [|discriminate].
    apply Hlive. rewrite Hself. exact Hsc.
  - (* stale or absent: reset *)
    destruct (reset_session st1) as [[[]|e] st2] eqn:Hreset;
      [|discriminate].
    unfold ret. intros H. injection H as <- <-.
    rewrite reset_session_eq in Hreset.
    apply _initialize_session_returns in Hreset
      as (ss & timeout & user & Hreply & Htimeout & Huser & ->).
    cbn [world self] in *.
    change (posts {| world := world st1; self := with_session None (self st1) |})
      with (posts st1) in Hreply.
    rewrite Hposts, Hworld in Hreply.
    split; [split; reflexivity|].
    split.
    { split; [|reflexivity]. intros _.
      unfold posts at 1. cbn [world after record trace].
      rewrite !occurrences_app. cbn. fold (posts st1). lia. }
    split; [discriminate|].
    eexists. split; [reflexivity|]. split.
    + apply Hlive. reflexivity.
    + intros _. exists ss, timeout.
      split; [exact Hreply|]. split; [exact Htimeout|]. reflexivity.
Qed.

Lemma ensure_session_active_outcome_witness :
  (true = true <->
   fst (is_session_active
          (mkState (scenario_world (Ok (company_reply 3600)) (Ok tt))
                   (installed_context (Some (session_expiring_in 10)))))
   = Ok false).
Proof.
  refine (proj1 (ensure_session_active_outcome
                   (mkState (scenario_world (Ok (company_reply 3600)) (Ok tt))
                      (installed_context (Some (session_expiring_in 10))))
                   (snd (ensure_session_active
                           (mkState
                              (scenario_world (Ok (company_reply 3600))
                                              (Ok tt))
                              (installed_context
                                 (Some (session_expiring_in 10))))))
                   true _)).
  etransitivity; [apply surjective_pairing|].
  f_equal.
Defined.

(** C2 fails as stated: the server may declare a timeout of 10 seconds.
    The reset succeeds, [ensure_session_active] returns [True], and the
    session it just opened is already within the 30-second window. *)
Lemma ensure_session_active_short_timeout :
  fst (ensure_session_active
         (mkState (scenario_world (Ok (company_reply 10)) (Ok tt))
                  (installed_context None)))
  = Ok true
  /\
  fst (is_session_active
         (snd (ensure_session_active
                 (mkState (scenario_world (Ok (company_reply 10)) (Ok tt))
                          (installed_context None)))))
  = Ok false.
Proof. split; vm_compute; reflexivity. Qed.

(** ** Resolving the session timeout *)

(** C5: the session timeout comes from the company user if the reply has
    one, else from the person user, else from the object the api-key
    user's [requested_by_user] refers to; with none of the three present
    [BunqException] is raised (the code's name for the specification's
    ConfigurationError), the session open and the reset built on it raise
    it too, nothing handles it, and no session is installed. *)
Theorem session_timeout_resolution (ss : SessionServer.t) :
  (forall company,
      SessionServer.user_company ss = Some company ->
      _get_session_timeout_seconds ss = Ok (User.session_timeout company)) /\
  (forall person,
      SessionServer.user_company ss = None ->
      SessionServer.user_person ss = Some person ->
      _get_session_timeout_seconds ss = Ok (User.session_timeout person)) /\
  (forall key,
      SessionServer.user_company ss = None ->
      SessionServer.user_person ss = None ->
      SessionServer.user_api_key ss = Some key ->
      _get_session_timeout_seconds ss =
      result_bind
        (UserApiKeyAnchoredUser.get_referenced_object
           (UserApiKey.requested_by_user key))
        (fun referenced => Ok (User.session_timeout referenced))) /\
  (SessionServer.user_company ss = None ->
   SessionServer.user_person ss = None ->
   SessionServer.user_api_key ss = None ->
   _get_session_timeout_seconds ss = Raise BunqException /\
   forall st,
     session_server_reply (world st) (posts st) = Ok ss ->
     (fst (_initialize_session st) = Raise BunqException /\
      self (snd (_initialize_session st)) = self st) /\
     (fst (reset_session st) = Raise BunqException /\
      session_context (self (snd (reset_session st))) = None) /\
     (fst (is_session_active st) = Ok false ->
      fst (ensure_session_active st) = Raise BunqException)).
Proof.
  unfold _get_session_timeout_seconds.
  split; [intros company ->; reflexivity|].
  split; [intros person -> ->; reflexivity|].
  split; [intros key -> -> ->; reflexivity|].
  intros Hcompany Hperson Hkey. rewrite Hcompany, Hperson, Hkey.
  split; [reflexivity|].
  assert (Hopen : forall s,
             session_server_reply (world s) (posts s) = Ok ss ->
             _initialize_session s =
             (Raise BunqException,
              after (SessionServerPost (api_key (self s))) s)).
  { intros s Hreply.
    unfold _initialize_session, _get_expiry_timestamp. unfold_monad.
    fold (posts s). rewrite Hreply.
    unfold _get_session_timeout_seconds.
    rewrite Hcompany, Hperson, Hkey. reflexivity. }
  intros st Hreply. split; [|split].
  - rewrite (Hopen st Hreply). split; reflexivity.
  - rewrite reset_session_eq, Hopen by exact Hreply. split; reflexivity.
  - intros Hstale. unfold ensure_session_active, bind.
    pose proof (is_session_active_frame st) as (Hposts & Hworld & _).
    destruct (is_session_active st) as [[active|e] st1]; cbn [fst snd] in *;
      [|discriminate].
    injection Hstale as ->. cbn [negb].
    rewrite reset_session_eq, Hopen; [reflexivity|].
    cbn [world]. change (posts _) with (posts st1).
    now rewrite Hworld, Hposts.
Qed.

Lemma session_timeout_resolution_witness :
  _get_session_timeout_seconds anonymous_reply = Raise BunqException
  /\ _get_session_timeout_seconds (company_reply 3600) = Ok 3600.
Proof.
  split.
  - apply (proj2 (proj2 (proj2 (session_timeout_resolution anonymous_reply)))
                 eq_refl eq_refl eq_refl).
  - apply (proj1 (session_timeout_resolution (company_reply 3600))
                 (User.mk 7 3600) eq_refl).
Defined.

(** ** Equality of contexts *)

Lemma option_string_eqb_eq (a b : option string) :
  option_string_eqb a b = true <-> a = b.
Proof.
  destruct a as [x|], b as [y|]; cbn; try (split; congruence).
  rewrite String.eqb_eq. split; congruence.
Qed.

Lemma ApiEnvironmentType_eqb_eq (a b : ApiEnvironmentType) :
  ApiEnvironmentType_eqb a b = true <-> a = b.
Proof. destruct a, b; cbn; split; congruence. Qed.

(** C9: two contexts are equal exactly when what the [token] accessor
    returns, the api key and the environment agree.  Installation keys,
    proxy, session expiry and user id play no part: contexts holding
    sessions with the same token are equal whatever their expiry, and
    contexts whose tokens differ are unequal. *)
Theorem ApiContext_eq_spec :
  (forall a b : ApiContext,
      ApiContext_eq a b = true <->
      token a = token b /\ api_key a = api_key b /\
      environment_type a = environment_type b) /\
  (forall env key ia ib pa pb tok ea eb ua ub,
      ApiContext_eq
        (mkApiContext env key ia
           (Some (SessionContext.mk tok ea ua)) pa)
        (mkApiContext env key ib
           (Some (SessionContext.mk tok eb ub)) pb) = true) /\
  (forall a b : ApiContext,
      token a <> token b -> ApiContext_eq a b = false).
Proof.
  assert (Hiff : forall a b : ApiContext,
             ApiContext_eq a b = true <->
             token a = token b /\ api_key a = api_key b /\
             environment_type a = environment_type b).
  { intros a b. unfold ApiContext_eq.
    rewrite !andb_true_iff, option_string_eqb_eq, String.eqb_eq,
      ApiEnvironmentType_eqb_eq. tauto. }
  split; [exact Hiff|]. split.
  - intros. apply Hiff. repeat split.
  - intros a b Hneq. destruct (ApiContext_eq a b) eqn:Heq; [|reflexivity].
    apply Hiff in Heq. tauto.
Qed.

Lemma ApiContext_eq_spec_witness :
  ApiContext_eq (installed_context (Some (session_expiring_in 10)))
                (installed_context None) = false.
Proof.
  apply (proj2 (proj2 ApiContext_eq_spec)
               (installed_context (Some (session_expiring_in 10)))
               (installed_context None)).
  cbn. discriminate.
Defined.

(** ** Unwrapping the response envelope *)

Section BunqModelProperties.

Variable bytes_decode : list Byte.byte -> result string.
Variable json_to_class_dict : string -> result json.
Variable cls : Type.
Variable deserialize : json -> result cls.

(** The loop with its accumulator is the element-wise map. *)
Lemma for_item_in_acc (wrapper : option string) (items : list json) :
  forall acc,
    for_item_in cls deserialize wrapper items acc =
    result_bind (unwrap_list_spec cls deserialize wrapper items)
                (fun vs => Ok (acc ++ vs)).
Proof.
  induction items as [|item rest IH]; intros acc; cbn.
  - now rewrite app_nil_r.
  - destruct (item_unwrapped wrapper item) as [unwrapped|e]; cbn;
      [|reflexivity].
    destruct (deserialize unwrapped) as [v|e]; cbn; [|reflexivity].
    rewrite IH.
    destruct (unwrap_list_spec cls deserialize wrapper rest) as [vs|e]; cbn;
      [|reflexivity].
    now rewrite <- app_assoc.
Qed.

Lemma for_item_in_spec (wrapper : option string) (items : list json) :
  for_item_in cls deserialize wrapper items [] =
  unwrap_list_spec cls deserialize wrapper items.
Proof.
  rewrite for_item_in_acc.
  destruct (unwrap_list_spec cls deserialize wrapper items); reflexivity.
Qed.

(** The map succeeds exactly with the list of the decoded elements, in
    the order of the array. *)
Lemma unwrap_list_spec_Forall2 (wrapper : option string) (items : list json)
      (vs : list cls) :
  unwrap_list_spec cls deserialize wrapper items = Ok vs <->
  Forall2 (fun item v =>
             result_bind (item_unwrapped wrapper item) deserialize = Ok v)
          items vs.
Proof.
  revert vs.
  induction items as [|item rest IH]; intros vs; cbn.
  - split.
    + intros H. injection H as <-. constructor.
    + intros H. inversion H. reflexivity.
  - split.
    + destruct (item_unwrapped wrapper item) as [unwrapped|e] eqn:Hu; cbn;
        [|discriminate].
      destruct (deserialize unwrapped) as [v|e] eqn:Hd; cbn; [|discriminate].
      destruct (unwrap_list_spec cls deserialize wrapper rest) as [vs'|e]
        eqn:Hrest; cbn; [|discriminate].
      intros H. injection H as <-. constructor.
      * rewrite Hu. exact Hd.
      * now apply IH.
    + intros H. inversion H as [|item' v rest' vs' Hv Hrest]; subst.
      apply IH in Hrest. rewrite Hrest.
      destruct (item_unwrapped wrapper item) as [unwrapped|e]; cbn in *;
        [|discriminate].
      rewrite Hv. reflexivity.
Qed.

Lemma _from_json_list_eq (response_raw : BunqResponseRaw.t)
      (wrapper : option string) fields array :
  body_as_dict bytes_decode json_to_class_dict response_raw
  = Ok (JDict fields) ->
  dict_get _FIELD_RESPONSE fields = Some (JList array) ->
  _from_json_list bytes_decode json_to_class_dict cls deserialize
                  response_raw wrapper =
  result_bind (unwrap_list_spec cls deserialize wrapper array)
              (fun vs =>
                 Ok (BunqResponse.mk vs
                       (BunqResponseRaw.headers response_raw))).
Proof.
  intros Hbody Hresponse. unfold _from_json_list.
  rewrite Hbody. cbn [result_bind py_getitem]. rewrite Hresponse.
  cbn [result_bind py_iter]. now rewrite for_item_in_spec.
Qed.

Lemma missing_response_key (fields : list (string * json)) :
  dict_get _FIELD_RESPONSE fields = None ->
  py_getitem (JDict fields) (SubStr _FIELD_RESPONSE) =
  Raise (KeyError (SubStr _FIELD_RESPONSE)).
Proof. intros H. cbn. now rewrite H. Qed.

End BunqModelProperties.

(** C6: on a body whose ["Response"] array starts with [first],
    [_unwrap_response_single] returns [first], or [first[wrapper]] when a
    wrapper key is given.  On [{"Response":[{"Id":{"id":42}}]}] with
    wrapper ["Id"] that is [{"id":42}], and [_process_for_id] on a raw
    response with that body returns the integer 42 (the converter turning
    [{"id":42}] into an [Id] holding 42) together with the headers. *)
Theorem unwrap_response_single_spec :
  (forall fields first rest,
      dict_get _FIELD_RESPONSE fields = Some (JList (first :: rest)) ->
      _unwrap_response_single (JDict fields) None = Ok first /\
      forall wrapper inner v,
        first = JDict inner ->
        dict_get wrapper inner = Some v ->
        _unwrap_response_single (JDict fields) (Some wrapper) = Ok v) /\
  _unwrap_response_single id_envelope (Some "Id")
  = Ok (JDict [("id", JInt 42)]) /\
  (forall bytes_decode json_to_class_dict deserialize_Id response_raw,
      body_as_dict bytes_decode json_to_class_dict response_raw
      = Ok id_envelope ->
      deserialize_Id (JDict [("id", JInt 42)]) = Ok (Id.mk (Some 42)) ->
      _process_for_id bytes_decode json_to_class_dict deserialize_Id
                      response_raw
      = Ok (BunqResponse.mk (Some 42)
                            (BunqResponseRaw.headers response_raw))).
Proof.
  split; [|split].
  - intros fields first rest Hresponse.
    unfold _unwrap_response_single. cbn [py_getitem result_bind].
    rewrite Hresponse. cbn. split; [reflexivity|].
    intros wrapper inner v -> Hv. cbn. now rewrite Hv.
  - reflexivity.
  - intros bytes_decode json_to_class_dict deserialize_Id response_raw
           Hbody Hid.
    unfold _process_for_id. rewrite Hbody. cbn. rewrite Hid. reflexivity.
Qed.

Lemma unwrap_response_single_spec_witness :
  _process_for_id stub_bytes_decode stub_json_to_class_dict
                  stub_deserialize_Id (raw_response id_envelope_text)
  = Ok (BunqResponse.mk (Some 42) [("X-Bunq-Client-Request-Id", "1")]).
Proof.
  apply (proj2 (proj2 unwrap_response_single_spec)
               stub_bytes_decode stub_json_to_class_dict stub_deserialize_Id
               (raw_response id_envelope_text)).
  - vm_compute. reflexivity.
  - reflexivity.
Defined.

(** C7: on a body whose ["Response"] is an array, [_from_json_list] is the
    element-wise map of the specification: it returns exactly when every
    element unwraps (through the wrapper key, if one is given) and decodes,
    and then holds the decoded elements one per array element, in the
    order of the array, next to the headers.  On
    [{"Response":[{"X":{"a":1}},{"X":{"a":2}}]}] with wrapper ["X"] the
    elements are [{"a":1}] and [{"a":2}], in that order. *)
Theorem from_json_list_spec :
  (forall bytes_decode json_to_class_dict (cls : Type)
          (deserialize : json -> result cls)
          response_raw wrapper fields array,
      body_as_dict bytes_decode json_to_class_dict response_raw
      = Ok (JDict fields) ->
      dict_get _FIELD_RESPONSE fields = Some (JList array) ->
      _from_json_list bytes_decode json_to_class_dict cls deserialize
                      response_raw wrapper =
      result_bind (unwrap_list_spec cls deserialize wrapper array)
                  (fun vs =>
                     Ok (BunqResponse.mk vs
                           (BunqResponseRaw.headers response_raw))) /\
      forall response,
        _from_json_list bytes_decode json_to_class_dict cls deserialize
                        response_raw wrapper = Ok response <->
        BunqResponse.headers response
        = BunqResponseRaw.headers response_raw /\
        Forall2 (fun item v =>
                   result_bind (item_unwrapped wrapper item) deserialize
                   = Ok v)
                array (BunqResponse.value response)) /\
  (forall bytes_decode json_to_class_dict response_raw,
      body_as_dict bytes_decode json_to_class_dict response_raw
      = Ok list_envelope ->
      _from_json_list bytes_decode json_to_class_dict json
                      stub_deserialize_json response_raw (Some "X")
      = Ok (BunqResponse.mk [JDict [("a", JInt 1)]; JDict [("a", JInt 2)]]
                            (BunqResponseRaw.headers response_raw))).
Proof.
  split.
  - intros bytes_decode json_to_class_dict cls deserialize response_raw
           wrapper fields array Hbody Hresponse.
    pose proof (_from_json_list_eq bytes_decode json_to_class_dict cls
                  deserialize response_raw wrapper fields array
                  Hbody Hresponse) as Heq.
    split; [exact Heq|].
    intros [value headers]. rewrite Heq. cbn [BunqResponse.headers
                                                BunqResponse.value].
    rewrite <- unwrap_list_spec_Forall2.
    destruct (unwrap_list_spec cls deserialize wrapper array) as [vs|e];
      cbn [result_bind].
    + split.
      * intros H. injection H as <- <-. split; reflexivity.
      * intros [-> H]. injection H as ->. reflexivity.
    + split; [discriminate|]. intros [_ H]. discriminate.
  - intros bytes_decode json_to_class_dict response_raw Hbody.
    rewrite (_from_json_list_eq bytes_decode json_to_class_dict json
               stub_deserialize_json response_raw (Some "X") _ _
               Hbody eq_refl).
    reflexivity.
Qed.

Lemma from_json_list_spec_witness :
  _from_json_list stub_bytes_decode stub_json_to_class_dict json
                  stub_deserialize_json (raw_response list_envelope_text)
                  (Some "X")
  = Ok (BunqResponse.mk [JDict [("a", JInt 1)]; JDict [("a", JInt 2)]]
                        [("X-Bunq-Client-Request-Id", "1")]).
Proof.
  apply (proj2 from_json_list_spec
               stub_bytes_decode stub_json_to_class_dict
               (raw_response list_envelope_text)).
  vm_compute. reflexivity.
Defined.

(** C8: when the body is a JSON object without a ["Response"] key, the
    single unwrapping (with or without a wrapper key) and the list
    unwrapping both raise, and return no value: the subscript
    [obj['Response']] raises [KeyError('Response')], which is the form the
    specification's ProtocolError takes in the code. *)
Theorem missing_response_raises
        (bytes_decode : list Byte.byte -> result string)
        (json_to_class_dict : string -> result json)
        (cls : Type) (deserialize : json -> result cls)
        (response_raw : BunqResponseRaw.t) (wrapper : option string)
        (fields : list (string * json)) :
  body_as_dict bytes_decode json_to_class_dict response_raw
  = Ok (JDict fields) ->
  dict_get _FIELD_RESPONSE fields = None ->
  _unwrap_response_single (JDict fields) wrapper
  = Raise (KeyError (SubStr "Response")) /\
  _from_json bytes_decode json_to_class_dict cls deserialize
             response_raw wrapper
  = Raise (KeyError (SubStr "Response")) /\
  _from_json_list bytes_decode json_to_class_dict cls deserialize
                  response_raw wrapper
  = Raise (KeyError (SubStr "Response")).
Proof.
  intros Hbody Hmissing.
  pose proof (missing_response_key fields Hmissing) as Hkey.
  assert (Hsingle : _unwrap_response_single (JDict fields) wrapper
                    = Raise (KeyError (SubStr "Response"))).
  { unfold _unwrap_response_single.
    destruct wrapper; rewrite Hkey; reflexivity. }
  split; [exact Hsingle|]. split.
  - unfold _from_json. rewrite Hbody. cbn [result_bind].
    rewrite Hsingle. reflexivity.
  - unfold _from_json_list. rewrite Hbody. cbn [result_bind].
    rewrite Hkey. reflexivity.
Qed.

Lemma missing_response_raises_witness :
  _from_json stub_bytes_decode stub_json_to_class_dict json
             stub_deserialize_json (raw_response error_envelope_text) None
  = Raise (KeyError (SubStr "Response"))
  /\
  _from_json_list stub_bytes_decode stub_json_to_class_dict json
                  stub_deserialize_json (raw_response error_envelope_text)
                  None
  = Raise (KeyError (SubStr "Response")).
Proof.
  apply (missing_response_raises
           stub_bytes_decode stub_json_to_class_dict json
           stub_deserialize_json (raw_response error_envelope_text) None
           error_envelope_fields).
  - vm_compute. reflexivity.
  - reflexivity.
Defined.

(** ** Further properties of the session life cycle *)

(** [now + timedelta(seconds=t)] for a representable [now]: the sum when it
    is a representable datetime, [OverflowError] otherwise, whichever of
    the two range checks fires. *)
Lemma expiry_arithmetic (now t : Z) :
  datetime.min <= now <= datetime.max ->
  result_bind (datetime.timedelta t) (datetime.add now) =
  if (datetime.min <=? now + t * datetime.MICROSECONDS_PER_SECOND)
     && (now + t * datetime.MICROSECONDS_PER_SECOND <=? datetime.max)
  then Ok (now + t * datetime.MICROSECONDS_PER_SECOND)
  else Raise OverflowError.
Proof.
  intros Hnow. unfold datetime.timedelta, datetime.add.
  unfold datetime.min, datetime.max, datetime.SECONDS_PER_DAY,
    datetime.MAX_DELTA_DAYS, datetime.MICROSECONDS_PER_SECOND in *.
  destruct (Z.abs (t / 86400) >? 999999999) eqn:Hdays; cbn [result_bind].
  - rewrite Z.gtb_ltb in Hdays. apply Z.ltb_lt in Hdays.
    assert (Hout : now + t * 1000000 < 0
                   \/ 3652059 * 86400 * 1000000 - 1 < now + t * 1000000).
    { destruct (Z.le_gt_cases 0 t) as [Hpos|Hneg].
      - right. rewrite Z.abs_eq in Hdays by (apply Z.div_pos; lia).
        assert (86400 * (t / 86400) <= t) by (apply Z.mul_div_le; lia).
        lia.
      - left. assert (t / 86400 < 0) by (apply Z.div_lt_upper_bound; lia).
        rewrite Z.abs_neq in Hdays by lia.
        assert (86400 * (t / 86400) <= t)
          by (apply Z.mul_div_le; lia).
        assert (t < 86400 * (t / 86400) + 86400).
        { pose proof (Z.mod_pos_bound t 86400 ltac:(lia)).
          pose proof (Z.div_mod t 86400 ltac:(lia)). lia. }
        lia. }
    destruct Hout as [Hlow|Hhigh].
    + assert (H : (0 <=? now + t * 1000000) = false) by (apply Z.leb_gt; lia).
      now rewrite H.
    + assert (H : (now + t * 1000000 <=? 3652059 * 86400 * 1000000 - 1)
                  = false) by (apply Z.leb_gt; lia).
      rewrite H. now rewrite andb_false_r.
  - destruct (0 <=? now + t * 1000000) eqn:Hlow;
      destruct (now + t * 1000000 <=? 3652059 * 86400 * 1000000 - 1)
               eqn:Hhigh; cbn [andb].
    + apply Z.leb_le in Hlow, Hhigh.
      assert (H1 : (now + t * 1000000 <? 0) = false) by (apply Z.ltb_ge; lia).
      assert (H2 : (3652059 * 86400 * 1000000 - 1 <? now + t * 1000000)
                   = false) by (apply Z.ltb_ge; lia).
      now rewrite H1, H2.
    + apply Z.leb_gt in Hhigh.
      assert (H2 : (3652059 * 86400 * 1000000 - 1 <? now + t * 1000000)
                   = true) by (apply Z.ltb_lt; lia).
      rewrite H2. now rewrite orb_true_r.
    + apply Z.leb_gt in Hlow.
      assert (H1 : (now + t * 1000000 <? 0) = true) by (apply Z.ltb_lt; lia).
      now rewrite H1.
    + apply Z.leb_gt in Hlow.
      assert (H1 : (now + t * 1000000 <? 0) = true) by (apply Z.ltb_lt; lia).
      now rewrite H1.
Qed.

(** A session open in closed form, once the server has replied and the
    reply names a timeout. *)
Lemma _initialize_session_eq (st : State) ss timeout :
  session_server_reply (world st) (posts st) = Ok ss ->
  _get_session_timeout_seconds ss = Ok timeout ->
  _initialize_session st =
  let st1 :=
    after ClockRead (after (SessionServerPost (api_key (self st))) st) in
  match result_bind (datetime.timedelta timeout)
                    (datetime.add (current_time st)) with
  | Raise e => (Raise e, st1)
  | Ok expiry_time =>
      match SessionServer.get_referenced_user ss with
      | Raise e => (Raise e, st1)
      | Ok user =>
          (Ok tt,
           mkState (world st1)
                   (with_session
                      (Some (SessionContext.mk
                               (SessionToken.token (SessionServer.token ss))
                               expiry_time (User.id_ user)))
                      (self st)))
      end
  end.
Proof.
  intros Hreply Htimeout.
  unfold _initialize_session, _get_expiry_timestamp. unfold_monad.
  fold (posts st). rewrite Hreply, Htimeout.
  cbn [world self record clock trace].
  rewrite reads_after_post. fold (current_time st).
  destruct (datetime.timedelta timeout) as [delta|e]; cbn [result_bind];
    [|reflexivity].
  destruct (datetime.add (current_time st) delta) as [expiry|e];
    [|reflexivity].
  destruct (SessionServer.get_referenced_user ss); reflexivity.
Qed.

(** A session open that raises leaves the context as it found it. *)
Lemma _initialize_session_raise_keeps_self (st : State) (e : exn) :
  fst (_initialize_session st) = Raise e ->
  self (snd (_initialize_session st)) = self st.
Proof.
  unfold _initialize_session, _get_expiry_timestamp. unfold_monad.
  destruct (session_server_reply _ _) as [ss|e0]; [|reflexivity].
  destruct (_get_session_timeout_seconds ss) as [timeout|e0]; [|reflexivity].
  cbn [world self].
  destruct (datetime.timedelta timeout) as [delta|e0]; [|reflexivity].
  destruct (datetime.add _ delta) as [expiry|e0]; [|reflexivity].
  destruct (SessionServer.get_referenced_user ss) as [user|e0];
    [discriminate|reflexivity].
Qed.

Lemma posts_after_delete (session_id : Z) (st : State) :
  posts (after (SessionDelete session_id) st) = posts st.
Proof.
  unfold posts, after, record. cbn [world trace].
  rewrite occurrences_app. cbn. lia.
Qed.

Lemma range_check (x : Z) :
  datetime.min <= x <= datetime.max <->
  (datetime.min <=? x) && (x <=? datetime.max) = true.
Proof.
  rewrite andb_true_iff, !Z.leb_le. tauto.
Qed.

(** X1: when the server replies with a resolvable timeout and user, and
    the expiry is a representable datetime, the session open returns; the
    context then holds the reply's token, the expiry [now + timeout] taken
    from one clock reading made after the POST, and the referenced user's
    id, and the [token] accessor gives the session token. *)
Theorem session_open_installs_reply (st : State) ss timeout user :
  session_server_reply (world st) (posts st) = Ok ss ->
  _get_session_timeout_seconds ss = Ok timeout ->
  SessionServer.get_referenced_user ss = Ok user ->
  datetime.min <= current_time st <= datetime.max ->
  datetime.min
  <= current_time st + timeout * datetime.MICROSECONDS_PER_SECOND
  <= datetime.max ->
  let st' := snd (_initialize_session st) in
  fst (_initialize_session st) = Ok tt /\
  session_context (self st') =
  Some (SessionContext.mk
          (SessionToken.token (SessionServer.token ss))
          (current_time st + timeout * datetime.MICROSECONDS_PER_SECOND)
          (User.id_ user)) /\
  token (self st') = Some (SessionToken.token (SessionServer.token ss)) /\
  trace (world st') =
  trace (world st) ++ [SessionServerPost (api_key (self st)); ClockRead].
Proof.
  intros Hreply Htimeout Huser Hnow Hfit.
  rewrite (_initialize_session_eq st ss timeout Hreply Htimeout).
  rewrite expiry_arithmetic by exact Hnow.
  apply range_check in Hfit. rewrite Hfit, Huser.
  cbn [fst snd self world with_session session_context _session_context
       token SessionContext.token after record trace].
  repeat split. now rewrite <- app_assoc.
Qed.

Lemma session_open_installs_reply_witness :
  token (self (snd (_initialize_session
                      (mkState
                         (scenario_world (Ok (company_reply 3600)) (Ok tt))
                         (installed_context None)))))
  = Some "session-token".
Proof.
  apply (session_open_installs_reply
           (mkState (scenario_world (Ok (company_reply 3600)) (Ok tt))
                    (installed_context None))
           (company_reply 3600) 3600 (User.mk 7 3600)
           eq_refl eq_refl eq_refl).
  - vm_compute. split; discriminate.
  - vm_compute. split; discriminate.
Defined.

(** X2: when the timeout the server declares puts the expiry outside the
    representable datetimes, the session open raises [OverflowError]
    after the POST was made, and the context is left as it was. *)
Theorem session_open_overflow (st : State) ss timeout :
  session_server_reply (world st) (posts st) = Ok ss ->
  _get_session_timeout_seconds ss = Ok timeout ->
  datetime.min <= current_time st <= datetime.max ->
  ~ (datetime.min
     <= current_time st + timeout * datetime.MICROSECONDS_PER_SECOND
     <= datetime.max) ->
  let st' := snd (_initialize_session st) in
  fst (_initialize_session st) = Raise OverflowError /\
  self st' = self st /\
  posts st' = S (posts st).
Proof.
  intros Hreply Htimeout Hnow Hout.
  rewrite (_initialize_session_eq st ss timeout Hreply Htimeout).
  rewrite expiry_arithmetic by exact Hnow.
  rewrite range_check in Hout. apply not_true_is_false in Hout.
  rewrite Hout. cbn [fst snd self after].
  repeat split.
  change (posts (after ClockRead
                   (after (SessionServerPost (api_key (self st))) st))
          = S (posts st)).
  now rewrite posts_after_clock, posts_after_post.
Qed.

Lemma session_open_overflow_witness :
  fst (_initialize_session
         (mkState
            (scenario_world (Ok (company_reply 1000000000000)) (Ok tt))
            (installed_context None)))
  = Raise OverflowError.
Proof.
  apply (session_open_overflow
           (mkState
              (scenario_world (Ok (company_reply 1000000000000)) (Ok tt))
              (installed_context None))
           (company_reply 1000000000000) 1000000000000
           eq_refl eq_refl).
  - vm_compute. split; discriminate.
  - vm_compute. intros [_ H]. apply H. reflexivity.
Defined.

(** X3: a reset that raises, for whatever reason, has already dropped the
    old session: the context holds no session, the [token] accessor falls
    back to the installation token, and the next liveness check says
    [False] without reading the clock.  The same holds when
    [ensure_session_active] raises. *)
Theorem failed_reset_leaves_no_session (st : State) (e : exn) :
  (fst (reset_session st) = Raise e ->
   let st' := snd (reset_session st) in
   session_context (self st') = None /\
   token (self st') =
   option_map InstallationContext.token (installation_context (self st)) /\
   is_session_active st' = (Ok false, st')) /\
  (fst (ensure_session_active st) = Raise e ->
   let st' := snd (ensure_session_active st) in
   session_context (self st') = None /\
   token (self st') =
   option_map InstallationContext.token (installation_context (self st)) /\
   is_session_active st' = (Ok false, st')).
Proof.
  assert (Hreset : forall s e0,
             fst (reset_session s) = Raise e0 ->
             session_context (self (snd (reset_session s))) = None /\
             token (self (snd (reset_session s))) =
             option_map InstallationContext.token
                        (installation_context (self s)) /\
             is_session_active (snd (reset_session s))
             = (Ok false, snd (reset_session s))).
  { intros s e0 Hfail. rewrite reset_session_eq in *.
    apply _initialize_session_raise_keeps_self in Hfail.
    cbn [self] in Hfail.
    assert (Hnone : session_context
                      (self (snd (_initialize_session
                                    {| world := world s;
                                       self := with_session None (self s) |})))
                    = None) by now rewrite Hfail.
    split; [exact Hnone|]. split.
    - rewrite Hfail. unfold token, with_session, installation_context.
      cbn. now destruct (_installation_context (self s)).
    - rewrite is_session_active_eq, Hnone. reflexivity. }
  split; [apply Hreset|].
  unfold ensure_session_active, bind.
  pose proof (is_session_active_frame st) as (_ & _ & Hself).
  destruct (is_session_active st) as [[[|]|e0] st1] eqn:Hcheck;
    cbn [negb fst snd] in *.
  - discriminate.
  - pose proof (Hreset st1 e) as Hst1.
    destruct (reset_session st1) as [[[]|e1] st2]; cbn [fst snd] in *;
      [discriminate|].
    intros H. injection H as ->. rewrite <- Hself. now apply Hst1.
  - rewrite is_session_active_eq in Hcheck.
    destruct (session_context (self st)); discriminate.
Qed.

Lemma failed_reset_leaves_no_session_witness :
  session_context
    (self (snd (reset_session
                  (mkState (scenario_world (Ok anonymous_reply) (Ok tt))
                           (installed_context
                              (Some (session_expiring_in 3600)))))))
  = None.
Proof.
  apply (proj1 (failed_reset_leaves_no_session
                  (mkState (scenario_world (Ok anonymous_reply) (Ok tt))
                           (installed_context
                              (Some (session_expiring_in 3600))))
                  BunqException)).
  reflexivity.
Defined.

(** X4: once [close_session] has returned, the [token] accessor falls back
    to the installation token, the liveness check says [False] without
    reading the clock, and the next [ensure_session_active] goes to the
    session-server endpoint again. *)
Theorem close_session_then_reopen (st : State) :
  session_delete_reply (world st) (deletes st) = Ok tt ->
  let st' := snd (close_session st) in
  fst (close_session st) = Ok tt /\
  token (self st') =
  option_map InstallationContext.token (installation_context (self st)) /\
  is_session_active st' = (Ok false, st') /\
  posts (snd (ensure_session_active st')) = S (posts st).
Proof.
  intros Hdelete. rewrite close_session_eq, Hdelete. cbn [fst snd].
  set (st' := {| world := record (SessionDelete _SESSION_ID_DUMMY) (world st);
                 self := with_session None (self st) |}).
  assert (Hactive : is_session_active st' = (Ok false, st'))
    by (rewrite is_session_active_eq; reflexivity).
  split; [reflexivity|]. split; [|split; [exact Hactive|]].
  - unfold token, installation_context. cbn.
    now destruct (_installation_context (self st)).
  - unfold ensure_session_active, bind. rewrite Hactive. cbn [negb].
    pose proof (_initialize_session_frame
                  (mkState (world st') (with_session None (self st'))))
      as [_ [evs [Htrace Hevs]]].
    rewrite <- reset_session_eq in Htrace. cbn [world self] in Htrace.
    assert (Hposts : posts (snd (reset_session st')) = S (posts st)).
    { unfold posts at 1. rewrite Htrace.
      rewrite (occurrences_post_post_clock _ _ _ Hevs).
      f_equal. apply (posts_after_delete _SESSION_ID_DUMMY st). }
    destruct (reset_session st') as [[[]|e] st2]; exact Hposts.
Qed.

Lemma close_session_then_reopen_witness :
  token (self (snd (close_session
                      (mkState
                         (scenario_world (Ok (company_reply 3600)) (Ok tt))
                         (installed_context
                            (Some (session_expiring_in 3600)))))))
  = Some "installation-token".
Proof.
  apply (close_session_then_reopen
           (mkState (scenario_world (Ok (company_reply 3600)) (Ok tt))
                    (installed_context (Some (session_expiring_in 3600))))
           eq_refl).
Defined.

(** X5: the liveness check never raises and never changes the context; it
    talks to no endpoint, and reads the clock once if a session is held
    and not at all otherwise. *)
Theorem is_session_active_read_only (st : State) :
  let st' := snd (is_session_active st) in
  (exists active, fst (is_session_active st) = Ok active) /\
  self st' = self st /\
  trace (world st') =
  trace (world st) ++
  match session_context (self st) with
  | Some _ => [ClockRead]
  | None => []
  end.
Proof.
  rewrite is_session_active_eq.
  destruct (session_context (self st)) as [sc|]; cbn [fst snd].
  - split; [eexists; reflexivity|]. split; reflexivity.
  - split; [eexists; reflexivity|]. split; [reflexivity|].
    now rewrite app_nil_r.
Qed.

(** X6: [__eq__] on contexts is reflexive, symmetric and transitive. *)
Theorem ApiContext_eq_equivalence :
  (forall a, ApiContext_eq a a = true) /\
  (forall a b, ApiContext_eq a b = ApiContext_eq b a) /\
  (forall a b c,
      ApiContext_eq a b = true ->
      ApiContext_eq b c = true ->
      ApiContext_eq a c = true).
Proof.
  assert (Hiff : forall a b : ApiContext,
             ApiContext_eq a b = true <->
             token a = token b /\ api_key a = api_key b /\
             environment_type a = environment_type b).
  { intros a b. unfold ApiContext_eq.
    rewrite !andb_true_iff, option_string_eqb_eq, String.eqb_eq,
      ApiEnvironmentType_eqb_eq. tauto. }
  split; [|split].
  - intros a. apply Hiff. repeat split.
  - intros a b.
    destruct (ApiContext_eq a b) eqn:Hab, (ApiContext_eq b a) eqn:Hba;
      try reflexivity.
    + apply Hiff in Hab. destruct Hab as (H1 & H2 & H3).
      assert (ApiContext_eq b a = true) by (apply Hiff; auto).
      congruence.
    + apply Hiff in Hba. destruct Hba as (H1 & H2 & H3).
      assert (ApiContext_eq a b = true) by (apply Hiff; auto).
      congruence.
  - intros a b c Hab Hbc. apply Hiff in Hab, Hbc. apply Hiff.
    destruct Hab as (H1 & H2 & H3), Hbc as (H4 & H5 & H6).
    repeat split; congruence.
Qed.

Lemma ApiContext_eq_equivalence_witness :
  ApiContext_eq (installed_context (Some (session_expiring_in 10)))
                (installed_context (Some (session_expiring_in 30))) = true.
Proof.
  apply (proj2 (proj2 ApiContext_eq_equivalence)
               (installed_context (Some (session_expiring_in 10)))
               (installed_context (Some (session_expiring_in 20)))
               (installed_context (Some (session_expiring_in 30)))).
  - reflexivity.
  - reflexivity.
Defined.

(** X7: after a reset that returned, the context equals its snapshot from
    before the reset exactly when the server handed out the token the
    context presented before; a renewal with a fresh token makes the two
    unequal. *)
Theorem reset_session_equality (st st' : State) :
  reset_session st = (Ok tt, st') ->
  exists sc,
    session_context (self st') = Some sc /\
    (ApiContext_eq (self st) (self st') = true <->
     token (self st) = Some (SessionContext.token sc)).
Proof.
  intros Hreset. rewrite reset_session_eq in Hreset.
  apply _initialize_session_returns in Hreset
    as (ss & timeout & user & _ & _ & _ & ->).
  cbn [self]. eexists. split; [reflexivity|].
  unfold ApiContext_eq.
  rewrite !andb_true_iff, option_string_eqb_eq, String.eqb_eq,
    ApiEnvironmentType_eqb_eq.
  unfold with_session, api_key, environment_type. cbn.
  unfold token at 2. cbn. tauto.
Qed.

Lemma reset_session_equality_witness :
  exists sc,
    session_context
      (self (snd (reset_session
                    (mkState
                       (scenario_world (Ok (company_reply 3600)) (Ok tt))
                       (installed_context
                          (Some (session_expiring_in 10)))))))
    = Some sc /\
    (ApiContext_eq
       (installed_context (Some (session_expiring_in 10)))
       (self (snd (reset_session
                     (mkState
                        (scenario_world (Ok (company_reply 3600)) (Ok tt))
                        (installed_context
                           (Some (session_expiring_in 10)))))))
     = true <->
     token (installed_context (Some (session_expiring_in 10)))
     = Some (SessionContext.token sc)).
Proof.
  apply (reset_session_equality
           (mkState (scenario_world (Ok (company_reply 3600)) (Ok tt))
                    (installed_context (Some (session_expiring_in 10))))
           (snd (reset_session
                   (mkState
                      (scenario_world (Ok (company_reply 3600)) (Ok tt))
                      (installed_context
                         (Some (session_expiring_in 10))))))).
  etransitivity; [apply surjective_pairing|].
  f_equal.
Defined.

(** ** Further properties of the envelope unwrapping *)

Section EnvelopeEdgeCases.

Variable bytes_decode : list Byte.byte -> result string.
Variable json_to_class_dict : string -> result json.
Variable cls : Type.
Variable deserialize : json -> result cls.
Variable deserialize_Id : json -> result Id.t.
Variable deserialize_Uuid : json -> result Uuid.t.

Variable response_raw : BunqResponseRaw.t.
Variable fields : list (string * json).
Hypothesis Hbody :
  body_as_dict bytes_decode json_to_class_dict response_raw
  = Ok (JDict fields).

#[local] Set Warnings "-notation-for-abbreviation".
Local Notation from_json := (_from_json bytes_decode json_to_class_dict cls
                                        deserialize response_raw).
Local Notation from_json_list :=
  (_from_json_list bytes_decode json_to_class_dict cls deserialize
                   response_raw).
Local Notation process_for_id :=
  (_process_for_id bytes_decode json_to_class_dict deserialize_Id
                   response_raw).
Local Notation process_for_uuid :=
  (_process_for_uuid bytes_decode json_to_class_dict deserialize_Uuid
                     response_raw).
Local Notation from_json_array_nested :=
  (_from_json_array_nested bytes_decode json_to_class_dict cls deserialize
                           response_raw).
Local Notation headers := (BunqResponseRaw.headers response_raw).

(** The single unwrapping is the per-element unwrapping of the list
    variant, applied to the first element. *)
Lemma unwrap_single_first (wrapper : option string) first rest :
  dict_get _FIELD_RESPONSE fields = Some (JList (first :: rest)) ->
  _unwrap_response_single (JDict fields) wrapper
  = item_unwrapped wrapper first.
Proof.
  intros Hresponse. unfold _unwrap_response_single.
  destruct wrapper; cbn [py_getitem result_bind]; rewrite Hresponse;
    reflexivity.
Qed.

Lemma from_json_first (wrapper : option string) first rest :
  dict_get _FIELD_RESPONSE fields = Some (JList (first :: rest)) ->
  from_json wrapper =
  result_bind (result_bind (item_unwrapped wrapper first) deserialize)
              (fun v => Ok (BunqResponse.mk v headers)).
Proof.
  intros Hresponse. unfold _from_json. rewrite Hbody. cbn [result_bind].
  rewrite (unwrap_single_first wrapper first rest Hresponse).
  destruct (item_unwrapped wrapper first); [|reflexivity].
  cbn [result_bind]. destruct (deserialize value); reflexivity.
Qed.

(** X8: on an empty ["Response"] array the single unwrapping raises
    [IndexError], with or without a wrapper key, and so do [_from_json] and
    [_process_for_id]; the list unwrapping returns the empty list. *)
Theorem empty_response_array (wrapper : option string) :
  dict_get _FIELD_RESPONSE fields = Some (JList []) ->
  _unwrap_response_single (JDict fields) wrapper = Raise IndexError /\
  from_json wrapper = Raise IndexError /\
  process_for_id = Raise IndexError /\
  from_json_list wrapper = Ok (BunqResponse.mk [] headers).
Proof.
  intros Hresponse.
  assert (Hsingle : forall w,
             _unwrap_response_single (JDict fields) w = Raise IndexError).
  { intros w. unfold _unwrap_response_single.
    destruct w; cbn [py_getitem result_bind]; rewrite Hresponse;
      reflexivity. }
  split; [apply Hsingle|]. split; [|split].
  - unfold _from_json. rewrite Hbody. cbn [result_bind].
    now rewrite Hsingle.
  - unfold _process_for_id. rewrite Hbody. cbn [result_bind].
    now rewrite Hsingle.
  - rewrite (_from_json_list_eq _ _ _ _ _ wrapper fields [] Hbody Hresponse).
    reflexivity.
Qed.

Lemma unwrap_list_spec_app (wrapper : option string) (good : list json) :
  forall vs rest,
    unwrap_list_spec cls deserialize wrapper good = Ok vs ->
    unwrap_list_spec cls deserialize wrapper (good ++ rest) =
    result_bind (unwrap_list_spec cls deserialize wrapper rest)
                (fun ws => Ok (vs ++ ws)).
Proof.
  induction good as [|item good IH]; intros vs rest; cbn.
  - intros H. injection H as <-. cbn.
    destruct (unwrap_list_spec cls deserialize wrapper rest); reflexivity.
  - destruct (item_unwrapped wrapper item) as [unwrapped|e]; cbn;
      [|discriminate].
    destruct (deserialize unwrapped) as [v|e]; cbn; [|discriminate].
    destruct (unwrap_list_spec cls deserialize wrapper good) as [vs'|e]
      eqn:Hgood; cbn; [|discriminate].
    intros H. injection H as <-.
    rewrite (IH vs' rest eq_refl).
    destruct (unwrap_list_spec cls deserialize wrapper rest); reflexivity.
Qed.

(** X9: the list unwrapping is all or nothing.  When the elements before
    some element unwrap and decode and that element does not, the call
    raises that element's exception; the elements already decoded are not
    returned and the elements after it are not looked at. *)
Theorem from_json_list_first_failure (wrapper : option string)
        (good : list json) (bad : json) (rest : list json)
        (vs : list cls) (e : exn) :
  dict_get _FIELD_RESPONSE fields = Some (JList (good ++ bad :: rest)) ->
  Forall2 (fun item v =>
             result_bind (item_unwrapped wrapper item) deserialize = Ok v)
          good vs ->
  result_bind (item_unwrapped wrapper bad) deserialize = Raise e ->
  from_json_list wrapper = Raise e.
Proof.
  intros Hresponse Hgood Hbad.
  rewrite (_from_json_list_eq _ _ _ _ _ wrapper fields _ Hbody Hresponse).
  apply unwrap_list_spec_Forall2 in Hgood.
  rewrite (unwrap_list_spec_app wrapper good vs (bad :: rest) Hgood).
  cbn [unwrap_list_spec].
  destruct (item_unwrapped wrapper bad) as [unwrapped|e0];
    cbn [result_bind] in *.
  - rewrite Hbad. reflexivity.
  - injection Hbad as ->. reflexivity.
Qed.

(** X10: whenever the list unwrapping of a non-empty array returns, the
    single unwrapping with the same wrapper key returns too, and its value
    is the first element of the list. *)
Theorem single_is_head_of_list (wrapper : option string) first rest
        (response : BunqResponse.t (list cls)) :
  dict_get _FIELD_RESPONSE fields = Some (JList (first :: rest)) ->
  from_json_list wrapper = Ok response ->
  exists v vs,
    BunqResponse.value response = v :: vs /\
    from_json wrapper = Ok (BunqResponse.mk v headers).
Proof.
  intros Hresponse Hlist.
  rewrite (_from_json_list_eq _ _ _ _ _ wrapper fields _ Hbody Hresponse)
    in Hlist.
  rewrite (from_json_first wrapper first rest Hresponse).
  cbn [unwrap_list_spec] in Hlist.
  destruct (item_unwrapped wrapper first) as [unwrapped|e];
    cbn [result_bind] in *; [|discriminate].
  destruct (deserialize unwrapped) as [v|e]; cbn [result_bind] in *;
    [|discriminate].
  destruct (unwrap_list_spec cls deserialize wrapper rest) as [vs|e];
    cbn [result_bind] in *; [|discriminate].
  injection Hlist as <-. exists v, vs. split; reflexivity.
Qed.

End EnvelopeEdgeCases.

Lemma empty_response_array_witness :
  _from_json stub_bytes_decode table_json_to_class_dict json
             stub_deserialize_json (raw_response empty_envelope_text) None
  = Raise IndexError
  /\
  _from_json_list stub_bytes_decode table_json_to_class_dict json
                  stub_deserialize_json (raw_response empty_envelope_text)
                  None
  = Ok (BunqResponse.mk [] [("X-Bunq-Client-Request-Id", "1")]).
Proof.
  pose proof (empty_response_array
                stub_bytes_decode table_json_to_class_dict json
                stub_deserialize_json stub_deserialize_Id
                (raw_response empty_envelope_text) empty_envelope_fields)
    as H.
  destruct (H ltac:(vm_compute; reflexivity) None eq_refl)
    as (_ & Hsingle & _ & Hlist).
  split; assumption.
Defined.

Lemma from_json_list_first_failure_witness :
  _from_json_list stub_bytes_decode table_json_to_class_dict json
                  stub_deserialize_json (raw_response mixed_envelope_text)
                  (Some "X")
  = Raise (KeyError (SubStr "X")).
Proof.
  apply (from_json_list_first_failure
           stub_bytes_decode table_json_to_class_dict json
           stub_deserialize_json (raw_response mixed_envelope_text)
           mixed_envelope_fields ltac:(vm_compute; reflexivity)
           (Some "X")
           [JDict [("X", JDict [("a", JInt 1)])]]
           (JDict [("Y", JDict [("a", JInt 2)])])
           [JDict [("X", JDict [("a", JInt 3)])]]
           [JDict [("a", JInt 1)]]).
  - reflexivity.
  - constructor; [reflexivity|constructor].
  - reflexivity.
Defined.

Lemma single_is_head_of_list_witness :
  exists v vs,
    [JDict [("a", JInt 1)]; JDict [("a", JInt 2)]] = v :: vs /\
    _from_json stub_bytes_decode table_json_to_class_dict json
               stub_deserialize_json (raw_response list_envelope_text)
               (Some "X")
    = Ok (BunqResponse.mk v [("X-Bunq-Client-Request-Id", "1")]).
Proof.
  apply (single_is_head_of_list
           stub_bytes_decode table_json_to_class_dict json
           stub_deserialize_json (raw_response list_envelope_text)
           [("Response",
             JList [JDict [("X", JDict [("a", JInt 1)])];
                    JDict [("X", JDict [("a", JInt 2)])]])]
           ltac:(vm_compute; reflexivity)
           (Some "X")
           (JDict [("X", JDict [("a", JInt 1)])])
           [JDict [("X", JDict [("a", JInt 2)])]]
           (BunqResponse.mk [JDict [("a", JInt 1)]; JDict [("a", JInt 2)]]
                            [("X-Bunq-Client-Request-Id", "1")])).
  - reflexivity.
  - vm_compute. reflexivity.
Defined.

Section EnvelopeErrors.

Variable bytes_decode : list Byte.byte -> result string.
Variable json_to_class_dict : string -> result json.
Variable cls : Type.
Variable deserialize : json -> result cls.
Variable deserialize_Id : json -> result Id.t.
Variable deserialize_Uuid : json -> result Uuid.t.
Variable response_raw : BunqResponseRaw.t.

#[local] Set Warnings "-notation-for-abbreviation".
Local Notation from_json := (_from_json bytes_decode json_to_class_dict cls
                                        deserialize response_raw).
Local Notation from_json_list :=
  (_from_json_list bytes_decode json_to_class_dict cls deserialize
                   response_raw).
Local Notation process_for_id :=
  (_process_for_id bytes_decode json_to_class_dict deserialize_Id
                   response_raw).
Local Notation process_for_uuid :=
  (_process_for_uuid bytes_decode json_to_class_dict deserialize_Uuid
                     response_raw).
Local Notation from_json_array_nested :=
  (_from_json_array_nested bytes_decode json_to_class_dict cls deserialize
                           response_raw).
Local Notation headers := (BunqResponseRaw.headers response_raw).

Ltac returned H :=
  repeat match type of H with
         | result_bind ?r _ = Ok _ =>
             destruct r; cbn [result_bind] in H; [|discriminate H]
         end;
  injection H as <-; reflexivity.

(** X11: every response the five class methods return carries the headers
    of the raw response, unchanged. *)
Theorem headers_are_passed_on :
  (forall r,
      _from_json_array_nested bytes_decode json_to_class_dict cls
                              deserialize response_raw = Ok r ->
      BunqResponse.headers r = BunqResponseRaw.headers response_raw) /\
  (forall wrapper r,
      _from_json bytes_decode json_to_class_dict cls deserialize
                 response_raw wrapper = Ok r ->
      BunqResponse.headers r = BunqResponseRaw.headers response_raw) /\
  (forall r,
      _process_for_id bytes_decode json_to_class_dict deserialize_Id
                      response_raw = Ok r ->
      BunqResponse.headers r = BunqResponseRaw.headers response_raw) /\
  (forall r,
      _process_for_uuid bytes_decode json_to_class_dict deserialize_Uuid
                        response_raw = Ok r ->
      BunqResponse.headers r = BunqResponseRaw.headers response_raw) /\
  (forall wrapper r,
      _from_json_list bytes_decode json_to_class_dict cls deserialize
                      response_raw wrapper = Ok r ->
      BunqResponse.headers r = BunqResponseRaw.headers response_raw).
Proof.
  split; [|split; [|split; [|split]]].
  - intros r H. unfold _from_json_array_nested in H. returned H.
  - intros wrapper r H. unfold _from_json in H. returned H.
  - intros r H. unfold _process_for_id in H. returned H.
  - intros r H. unfold _process_for_uuid in H. returned H.
  - intros wrapper r H. unfold _from_json_list in H. returned H.
Qed.

Variable fields : list (string * json).
Hypothesis Hbody :
  body_as_dict bytes_decode json_to_class_dict response_raw
  = Ok (JDict fields).

(** X12: a body without a ["Response"] key makes the nested-array
    unwrapping and the id and uuid shortcuts raise [KeyError('Response')]
    as well, before the converter is asked to decode anything. *)
Theorem absent_response_raises_everywhere :
  dict_get _FIELD_RESPONSE fields = None ->
  from_json_array_nested = Raise (KeyError (SubStr "Response")) /\
  process_for_id = Raise (KeyError (SubStr "Response")) /\
  process_for_uuid = Raise (KeyError (SubStr "Response")).
Proof.
  intros Hmissing.
  pose proof (missing_response_key fields Hmissing) as Hkey.
  unfold _from_json_array_nested, _process_for_id, _process_for_uuid,
    _unwrap_response_single.
  rewrite Hbody. cbn [result_bind]. rewrite Hkey. repeat split.
Qed.

(** X13: when the first element of the array is an object without the
    wrapper key, the single and the list unwrapping raise [KeyError] of
    that key; the id shortcut raises [KeyError('Id')] and the uuid shortcut
    [KeyError('Uuid')]. *)
Theorem missing_wrapper_key_raises inner rest :
  dict_get _FIELD_RESPONSE fields = Some (JList (JDict inner :: rest)) ->
  (forall wrapper,
      dict_get wrapper inner = None ->
      _unwrap_response_single (JDict fields) (Some wrapper)
      = Raise (KeyError (SubStr wrapper)) /\
      from_json (Some wrapper) = Raise (KeyError (SubStr wrapper)) /\
      from_json_list (Some wrapper) = Raise (KeyError (SubStr wrapper))) /\
  (dict_get "Id" inner = None ->
   process_for_id = Raise (KeyError (SubStr "Id"))) /\
  (dict_get "Uuid" inner = None ->
   process_for_uuid = Raise (KeyError (SubStr "Uuid"))).
Proof.
  intros Hresponse.
  assert (Hsingle : forall wrapper,
             dict_get wrapper inner = None ->
             _unwrap_response_single (JDict fields) (Some wrapper)
             = Raise (KeyError (SubStr wrapper))).
  { intros wrapper Hmissing. unfold _unwrap_response_single.
    cbn [py_getitem result_bind]. rewrite Hresponse. cbn.
    now rewrite Hmissing. }
  split; [|split].
  - intros wrapper Hmissing. split; [now apply Hsingle|]. split.
    + unfold _from_json. rewrite Hbody. cbn [result_bind].
      now rewrite Hsingle.
    + rewrite (_from_json_list_eq _ _ _ _ _ (Some wrapper) fields _
                 Hbody Hresponse).
      cbn. now rewrite Hmissing.
  - intros Hmissing. unfold _process_for_id. rewrite Hbody.
    cbn [result_bind]. now rewrite (Hsingle _FIELD_ID Hmissing).
  - intros Hmissing. unfold _process_for_uuid. rewrite Hbody.
    cbn [result_bind]. now rewrite (Hsingle _FIELD_UUID Hmissing).
Qed.

(** X14: when ["Response"] holds [null], a boolean or a number instead of
    an array, the single unwrapping, [_from_json] and the list unwrapping
    raise [TypeError]. *)
Theorem scalar_response_raises (v : json) (wrapper : option string) :
  dict_get _FIELD_RESPONSE fields = Some v ->
  is_scalar v = true ->
  _unwrap_response_single (JDict fields) wrapper = Raise TypeError /\
  from_json wrapper = Raise TypeError /\
  from_json_list wrapper = Raise TypeError.
Proof.
  intros Hresponse Hscalar.
  assert (Hsingle : _unwrap_response_single (JDict fields) wrapper
                    = Raise TypeError).
  { unfold _unwrap_response_single.
    destruct wrapper; cbn [py_getitem result_bind]; rewrite Hresponse;
      destruct v; try discriminate Hscalar; reflexivity. }
  split; [exact Hsingle|]. split.
  - unfold _from_json. rewrite Hbody. cbn [result_bind].
    now rewrite Hsingle.
  - unfold _from_json_list. rewrite Hbody. cbn [result_bind py_getitem].
    rewrite Hresponse.
    destruct v; try discriminate Hscalar; reflexivity.
Qed.

End EnvelopeErrors.

Lemma headers_are_passed_on_witness :
  BunqResponse.headers
    (BunqResponse.mk (Some 42) [("X-Bunq-Client-Request-Id", "1")])
  = BunqResponseRaw.headers (raw_response id_envelope_text).
Proof.
  apply (proj1 (proj2 (proj2 (headers_are_passed_on
                                stub_bytes_decode table_json_to_class_dict
                                json stub_deserialize_json
                                stub_deserialize_Id stub_deserialize_Uuid
                                (raw_response id_envelope_text))))).
  vm_compute. reflexivity.
Defined.

Lemma absent_response_raises_everywhere_witness :
  _process_for_id stub_bytes_decode table_json_to_class_dict
                  stub_deserialize_Id (raw_response error_envelope_text)
  = Raise (KeyError (SubStr "Response")).
Proof.
  apply (absent_response_raises_everywhere
           stub_bytes_decode table_json_to_class_dict json
           stub_deserialize_json stub_deserialize_Id stub_deserialize_Uuid
           (raw_response error_envelope_text) error_envelope_fields
           ltac:(vm_compute; reflexivity) eq_refl).
Defined.

Lemma missing_wrapper_key_raises_witness :
  _process_for_uuid stub_bytes_decode table_json_to_class_dict
                    stub_deserialize_Uuid (raw_response id_envelope_text)
  = Raise (KeyError (SubStr "Uuid")).
Proof.
  apply (missing_wrapper_key_raises
           stub_bytes_decode table_json_to_class_dict json
           stub_deserialize_json stub_deserialize_Id stub_deserialize_Uuid
           (raw_response id_envelope_text)
           [("Response", JList [JDict [("Id", JDict [("id", JInt 42)])]])]
           ltac:(vm_compute; reflexivity)
           [("Id", JDict [("id", JInt 42)])] [] eq_refl).
  reflexivity.
Defined.

Lemma scalar_response_raises_witness :
  _from_json_list stub_bytes_decode table_json_to_class_dict json
                  stub_deserialize_json (raw_response null_envelope_text)
                  None
  = Raise TypeError.
Proof.
  apply (scalar_response_raises
           stub_bytes_decode table_json_to_class_dict json
           stub_deserialize_json (raw_response null_envelope_text)
           null_envelope_fields ltac:(vm_compute; reflexivity)
           JNull None eq_refl eq_refl).
Defined.

(** ** Constructing a context: the three phases *)

Section ConstructionProperties.

Variable generate_rsa_private_key : result RsaKey.
Variable publickey : RsaKey -> RsaKey.
Variable public_key_to_string : RsaKey -> string.
Variable Installation_create :
  ApiContext -> string -> result (BunqResponse.t Installation.t).
Variable RSA_import_key : string -> result RsaKey.
Variable DeviceServerInternal_create :
  string -> string -> list string -> ApiContext -> result unit.

Variable environment : ApiEnvironmentType.
Variable key : string.
Variable device_description : string.
Variable permitted_ips : option (list string).
Variable proxy : option string.
Variable w : World.

#[local] Set Warnings "-notation-for-abbreviation".
Local Notation construct :=
  (ApiContext_init generate_rsa_private_key publickey public_key_to_string
                   Installation_create RSA_import_key
                   DeviceServerInternal_create
                   environment key device_description permitted_ips proxy w).

(** The object as [__init__] sets it up before [_initialize] runs. *)
Local Notation blank := (mkApiContext environment key None None proxy).

(** The object once the installation phase has stored its context. *)
Local Notation installed private_key response public_key_server :=
  (mkApiContext environment key
     (Some (InstallationContext.mk
              (SessionToken.token
                 (Installation.token (BunqResponse.value response)))
              private_key public_key_server))
     None proxy).

Local Notation server_key response :=
  (PublicKeyServer.server_public_key
     (Installation.server_public_key (BunqResponse.value response))).

Local Notation ips :=
  (match permitted_ips with
   | None => []
   | Some l => l
   end).

(** X15: construction stops at the first phase that raises.  A failure of
    key generation, of the installation call or of the import of the
    server's key leaves the object without installation context; a
    failure of device registration leaves it with the installation context
    and no session.  In each case the exception is the constructor's
    outcome, and neither the session-server endpoint nor the clock was
    consulted. *)
Theorem construction_stops_at_first_failure (e : exn) :
  (generate_rsa_private_key = Raise e ->
   construct = (Raise e, mkState w blank)) /\
  (forall private_key,
      generate_rsa_private_key = Ok private_key ->
      Installation_create
        blank (public_key_to_string (publickey private_key)) = Raise e ->
      construct = (Raise e, mkState w blank)) /\
  (forall private_key response,
      generate_rsa_private_key = Ok private_key ->
      Installation_create
        blank (public_key_to_string (publickey private_key)) = Ok response ->
      RSA_import_key (server_key response) = Raise e ->
      construct = (Raise e, mkState w blank)) /\
  (forall private_key response public_key_server,
      generate_rsa_private_key = Ok private_key ->
      Installation_create
        blank (public_key_to_string (publickey private_key)) = Ok response ->
      RSA_import_key (server_key response) = Ok public_key_server ->
      DeviceServerInternal_create
        device_description key ips
        (installed private_key response public_key_server) = Raise e ->
      construct
      = (Raise e,
         mkState w (installed private_key response public_key_server))).
Proof.
  unfold ApiContext_init, _initialize, _initialize_installation,
    _register_device, set_installation_context.
  unfold_monad. cbn [self world].
  split; [|split; [|split]].
  - intros ->. reflexivity.
  - intros private_key -> ->. reflexivity.
  - intros private_key response -> -> ->. reflexivity.
  - intros private_key response public_key_server -> -> ->.
    cbn [self world _environment_type _api_key _session_context _proxy_url
         api_key].
    intros ->. reflexivity.
Qed.

(** X16: when the three phases go through, the installation endpoint is
    called for a context that has no bearer token yet, the device
    registration for a context whose bearer token is the installation
    token just issued and which holds no session, and the remaining work
    is the session open on that context: the constructor's outcome and
    final state are those of [_initialize_session]. *)
Theorem construction_reaches_session_open
        private_key response public_key_server :
  generate_rsa_private_key = Ok private_key ->
  Installation_create
    blank (public_key_to_string (publickey private_key)) = Ok response ->
  RSA_import_key (server_key response) = Ok public_key_server ->
  DeviceServerInternal_create
    device_description key ips
    (installed private_key response public_key_server) = Ok tt ->
  token blank = None /\
  token (installed private_key response public_key_server)
  = Some (SessionToken.token
            (Installation.token (BunqResponse.value response))) /\
  construct
  = _initialize_session
      (mkState w (installed private_key response public_key_server)).
Proof.
  intros Hkey Hinstall Himport Hdevice.
  split; [reflexivity|]. split; [reflexivity|].
  unfold ApiContext_init, _initialize, _initialize_installation,
    _register_device, set_installation_context.
  unfold_monad. cbn [self world]. rewrite Hkey, Hinstall, Himport.
  cbn [self world _environment_type _api_key _session_context _proxy_url
       api_key].
  rewrite Hdevice. reflexivity.
Qed.

End ConstructionProperties.

Lemma construction_stops_at_first_failure_witness :
  ApiContext_init
    (Ok "client-private-key") stub_publickey stub_public_key_to_string
    stub_Installation_create stub_RSA_import_key
    (fun _ _ _ _ => Raise (ExternalError "registration refused"))
    SANDBOX "api-key" "laptop" None None
    (scenario_world (Ok (company_reply 3600)) (Ok tt))
  = (Raise (ExternalError "registration refused"),
     mkState (scenario_world (Ok (company_reply 3600)) (Ok tt))
             (installed_context None)).
Proof.
  apply (proj2 (proj2 (proj2
           (construction_stops_at_first_failure
              (Ok "client-private-key") stub_publickey
              stub_public_key_to_string stub_Installation_create
              stub_RSA_import_key
              (fun _ _ _ _ => Raise (ExternalError "registration refused"))
              SANDBOX "api-key" "laptop" None None
              (scenario_world (Ok (company_reply 3600)) (Ok tt))
              (ExternalError "registration refused"))))
           "client-private-key"
           (BunqResponse.mk
              (Installation.mk (Id.mk (Some 1))
                               (SessionToken.mk "installation-token")
                               (PublicKeyServer.mk "server-public-key"))
              [])
           "server-public-key" eq_refl eq_refl eq_refl eq_refl).
Defined.

Lemma construction_reaches_session_open_witness :
  ApiContext_init
    (Ok "client-private-key") stub_publickey stub_public_key_to_string
    stub_Installation_create stub_RSA_import_key
    stub_DeviceServerInternal_create
    SANDBOX "api-key" "laptop" None None
    (scenario_world (Ok (company_reply 3600)) (Ok tt))
  = _initialize_session
      (mkState (scenario_world (Ok (company_reply 3600)) (Ok tt))
               (installed_context None)).
Proof.
  apply (proj2 (proj2
           (construction_reaches_session_open
              (Ok "client-private-key") stub_publickey
              stub_public_key_to_string stub_Installation_create
              stub_RSA_import_key stub_DeviceServerInternal_create
              SANDBOX "api-key" "laptop" None None
              (scenario_world (Ok (company_reply 3600)) (Ok tt))
              "client-private-key"
              (BunqResponse.mk
                 (Installation.mk (Id.mk (Some 1))
                                  (SessionToken.mk "installation-token")
                                  (PublicKeyServer.mk "server-public-key"))
                 [])
              "server-public-key" eq_refl eq_refl eq_refl eq_refl))).
Defined.

(** ** Staleness over time *)

(** X17: as long as the clock does not run backwards, a session found
    stale stays stale: a liveness check that follows one that said [False]
    says [False] again.  Only a reset brings a context back to active. *)
Theorem stale_stays_stale (st : State) :
  clock (world st) (occurrences is_ClockRead (trace (world st)))
  <= clock (world st) (S (occurrences is_ClockRead (trace (world st)))) ->
  fst (is_session_active st) = Ok false ->
  fst (is_session_active (snd (is_session_active st))) = Ok false.
Proof.
  intros Hclock. rewrite (is_session_active_eq st).
  destruct (session_context (self st)) as [sc|] eqn:Hsc; cbn [fst snd].
  - intros Hstale. injection Hstale as Hstale.
    rewrite is_session_active_eq. cbn [after self]. rewrite Hsc.
    cbn [fst]. f_equal.
    rewrite Z.gtb_ltb in *. apply Z.ltb_ge in Hstale. apply Z.ltb_ge.
    unfold current_time in *. cbn [after world record clock trace].
    rewrite occurrences_app. cbn [occurrences filter is_ClockRead length].
    rewrite Nat.add_1_r. lia.
  - intros _. rewrite is_session_active_eq, Hsc. reflexivity.
Qed.

Lemma stale_stays_stale_witness :
  fst (is_session_active
         (snd (is_session_active
                 (mkState (scenario_world (Ok (company_reply 3600)) (Ok tt))
                          (installed_context
                             (Some (session_expiring_in 30)))))))
  = Ok false.
Proof.
  apply (stale_stays_stale
           (mkState (scenario_world (Ok (company_reply 3600)) (Ok tt))
                    (installed_context (Some (session_expiring_in 30))))).
  - vm_compute. discriminate.
  - reflexivity.
Defined.
